(** * The dependency-scanning demo server (app.py), embedded in Rocq

    The application is a Flask program with five view functions.  Each one
    reads one query parameter, calls one third-party library and formats the
    result as text.  The embedding follows the file top to bottom:

    - [Python]: the values the handlers manipulate (text, bytes, exceptions,
      slices, integer formatting, UTF-8);
    - [base64], [Struct], [padding], [Fernet]: the envelope that
      [cryptography.fernet] builds around its two primitives, which are an
      interface ([CryptoBackend]) with one instance, [openssl], made of
      [SHA256], [HMAC], [AES] and [CBC];
    - the libraries whose code is not part of the application (template
      engine, YAML loader) as interfaces;
    - the outside world (entropy, clock, network) as explicit state;
    - the handlers and the routing table, in the order of app.py. *)

From Stdlib Require Import String Ascii List NArith ZArith Lia Bool Btauto.
From Stdlib Require Import ZifyNat ZifyN.
From Stdlib Require Import Strings.Byte.
From Stdlib Require Import DecimalString.
Import ListNotations.

Set Implicit Arguments.

(* ------------------------------------------------------------------ *)
(** ** Python values *)
(* ------------------------------------------------------------------ *)

Module Python.

(** A Python [str] is a sequence of Unicode code points (all of them below
    0x110000); [bytes] is a sequence of octets. *)
Definition str := list N.
Definition bytes := list byte.

(** String literals of the source, written as Rocq strings. *)
Definition lit (s : string) : str :=
  map N_of_ascii (list_ascii_of_string s).

(** The double quote, which the literals of app.py contain. *)
Definition dquote : string :=
  String (Ascii false true false false false true false false) EmptyString.

(** The line feed of a multi-line literal. *)
Definition newline : string :=
  String (Ascii false true false true false false false false) EmptyString.

Fixpoint str_eqb (s t : str) : bool :=
  match s, t with
  | [], [] => true
  | c :: s', d :: t' => N.eqb c d && str_eqb s' t'
  | _, _ => false
  end.

(** [t.startswith(s)]. *)
Fixpoint startswith (s t : str) : bool :=
  match s, t with
  | [], _ => true
  | c :: s', d :: t' => N.eqb c d && startswith s' t'
  | _ :: _, [] => false
  end.

(** [s in t] on text: [s] occurs in [t] as a contiguous run. *)
Fixpoint contains (s t : str) : bool :=
  startswith s t ||
  match t with
  | [] => false
  | _ :: t' => contains s t'
  end.

(** An exception instance: its class name and [str(e)].  Only instances of
    [Exception] are outcomes of a call; the signals that end the
    interpreter (KeyboardInterrupt, SystemExit) are not modelled.  The
    messages of the errors that built-in operations raise are shortened. *)
Record exn : Type := mkExn { exn_class : string; exn_str : str }.

(** What evaluating a Python expression yields. *)
Inductive outcome (A : Type) : Type :=
| Return (a : A)
| Raise (e : exn).
Arguments Return {A} a.
Arguments Raise {A} e.

Definition returned {A} (o : outcome A) : bool :=
  match o with Return _ => true | Raise _ => false end.

(** [s[:n]] for a non-negative [n]: the first [n] items, or all of them
    when there are fewer. *)
Definition slice_to {A} (n : nat) (s : list A) : list A := firstn n s.

(** [s[n:]]. *)
Definition slice_from {A} (n : nat) (s : list A) : list A := skipn n s.

(** [s[-n:]] and [s[:-n]] for [0 < n]. *)
Definition slice_last {A} (n : nat) (s : list A) : list A :=
  skipn (length s - n) s.
Definition slice_but_last {A} (n : nat) (s : list A) : list A :=
  firstn (length s - n) s.

(** [format(i, '')] of an integer inside an f-string: decimal digits. *)
Definition str_of_int (i : Z) : str :=
  lit (NilZero.string_of_int (Z.to_int i)).

Local Open Scope N_scope.

Definition byte_of_N (n : N) : byte :=
  match Byte.of_N (n mod 256) with
  | Some b => b
  | None => x00
  end.

Definition is_surrogate (c : N) : bool :=
  (N.leb 55296 c && N.leb c 57343)%bool.

(** UTF-8 of one code point. *)
Definition utf8_of_code_point (c : N) : bytes :=
  if N.ltb c 128 then [byte_of_N c]
  else if N.ltb c 2048 then
    [byte_of_N (192 + c / 64); byte_of_N (128 + c mod 64)]
  else if N.ltb c 65536 then
    [byte_of_N (224 + c / 4096); byte_of_N (128 + (c / 64) mod 64);
     byte_of_N (128 + c mod 64)]
  else
    [byte_of_N (240 + c / 262144); byte_of_N (128 + (c / 4096) mod 64);
     byte_of_N (128 + (c / 64) mod 64); byte_of_N (128 + c mod 64)].

(** [s.encode()]: UTF-8, strict; a lone surrogate raises. *)
Fixpoint str_encode (s : str) : outcome bytes :=
  match s with
  | [] => Return []
  | c :: s' =>
      if is_surrogate c
      then Raise (mkExn "UnicodeEncodeError" (lit "surrogates not allowed"))
      else match str_encode s' with
           | Return bs => Return (utf8_of_code_point c ++ bs)
           | Raise e => Raise e
           end
  end.

Definition is_continuation (b : byte) : bool :=
  let n := Byte.to_N b in (N.leb 128 n && N.leb n 191)%bool.

Definition in_range (lo hi : N) (b : byte) : bool :=
  let n := Byte.to_N b in (N.leb lo n && N.leb n hi)%bool.

Definition UnicodeDecodeError : exn :=
  mkExn "UnicodeDecodeError" (lit "invalid utf-8").

(** [b.decode()]: UTF-8, strict: shortest forms only, no surrogates,
    nothing above U+10FFFF. *)
Fixpoint bytes_decode (b : bytes) : outcome str :=
  let cont (c : N) (rest : outcome str) :=
    match rest with
    | Return s => Return (c :: s)
    | Raise e => Raise e
    end in
  let low (x : byte) := Byte.to_N x mod 64 in
  match b with
  | [] => Return []
  | b0 :: r0 =>
      let n0 := Byte.to_N b0 in
      if N.ltb n0 128 then cont n0 (bytes_decode r0)
      else if in_range 194 223 b0 then
        match r0 with
        | b1 :: r1 =>
            if is_continuation b1
            then cont ((n0 - 192) * 64 + low b1) (bytes_decode r1)
            else Raise UnicodeDecodeError
        | _ => Raise UnicodeDecodeError
        end
      else if in_range 224 239 b0 then
        match r0 with
        | b1 :: b2 :: r2 =>
            if (is_continuation b1 && is_continuation b2
                && (negb (N.eqb n0 224) || in_range 160 191 b1)
                && (negb (N.eqb n0 237) || in_range 128 159 b1))%bool
            then cont ((n0 - 224) * 4096 + low b1 * 64 + low b2)
                      (bytes_decode r2)
            else Raise UnicodeDecodeError
        | _ => Raise UnicodeDecodeError
        end
      else if in_range 240 244 b0 then
        match r0 with
        | b1 :: b2 :: b3 :: r3 =>
            if (is_continuation b1 && is_continuation b2
                && is_continuation b3
                && (negb (N.eqb n0 240) || in_range 144 191 b1)
                && (negb (N.eqb n0 244) || in_range 128 143 b1))%bool
            then cont ((n0 - 240) * 262144 + low b1 * 4096
                       + low b2 * 64 + low b3)
                      (bytes_decode r3)
            else Raise UnicodeDecodeError
        | _ => Raise UnicodeDecodeError
        end
      else Raise UnicodeDecodeError
  end.

(** [b.hex()]. *)
Definition hex (b : bytes) : string :=
  let digit (n : N) : ascii :=
    if N.ltb n 10 then ascii_of_N (48 + n) else ascii_of_N (87 + n) in
  string_of_list_ascii
    (flat_map (fun x => [digit (Byte.to_N x / 16); digit (Byte.to_N x mod 16)])
              b).

(** Text made of the ASCII characters of a byte string. *)
Definition ascii_text (b : bytes) : str := map Byte.to_N b.

Definition is_ascii (b : byte) : bool := N.ltb (Byte.to_N b) 128.

(** A Unicode scalar value: a code point that is not a surrogate.  Text
    decoded from a query string holds nothing else. *)
Definition scalar (c : N) : bool :=
  (N.ltb c 1114112 && negb (is_surrogate c))%bool.

(** A decoded code point put in front of the rest of the decoding. *)
Definition cons_decoded (c : N) (rest : outcome str) : outcome str :=
  match rest with
  | Return s => Return (c :: s)
  | Raise e => Raise e
  end.

End Python.

Import Python.

(* ------------------------------------------------------------------ *)
(** ** base64, struct and PKCS7 padding, as cryptography.fernet uses them *)
(* ------------------------------------------------------------------ *)

Module base64.
Local Open Scope N_scope.

(** The URL-safe alphabet: the standard one with [-] and [_] for the last
    two digits. *)
Definition urlsafe_alphabet : bytes :=
  list_byte_of_string
    "ABCDEFGHIJKLMNOPQRSTUVWXYZabcdefghijklmnopqrstuvwxyz0123456789-_".

Definition pad_char : byte := x3d.

Definition char_of (i : N) : byte := nth (N.to_nat i) urlsafe_alphabet pad_char.

Fixpoint index_in (c : byte) (table : bytes) (i : N) : option N :=
  match table with
  | [] => None
  | d :: table' =>
      if Byte.eqb c d then Some i else index_in c table' (N.succ i)
  end.

Definition index_of (c : byte) : option N := index_in c urlsafe_alphabet 0.

(** The 24 bits of three octets, most significant first. *)
Definition quantum (a b c : byte) : N :=
  65536 * Byte.to_N a + 256 * Byte.to_N b + Byte.to_N c.

(** [base64.urlsafe_b64encode(s)]: four digits per three octets, the last
    group padded with [=]. *)
Fixpoint urlsafe_b64encode (s : bytes) : bytes :=
  match s with
  | [] => []
  | [a] =>
      let n := quantum a x00 x00 in
      [char_of (n / 262144); char_of ((n / 4096) mod 64); pad_char; pad_char]
  | [a; b] =>
      let n := quantum a b x00 in
      [char_of (n / 262144); char_of ((n / 4096) mod 64);
       char_of ((n / 64) mod 64); pad_char]
  | a :: b :: c :: rest =>
      let n := quantum a b c in
      char_of (n / 262144) :: char_of ((n / 4096) mod 64)
        :: char_of ((n / 64) mod 64) :: char_of (n mod 64)
        :: urlsafe_b64encode rest
  end.

Definition binascii_Error : exn :=
  mkExn "binascii.Error" (lit "Incorrect padding").

Definition digits (i1 i2 i3 i4 : N) : N :=
  ((i1 * 64 + i2) * 64 + i3) * 64 + i4.

(** [base64.urlsafe_b64decode(s)] on canonical text, groups of four digits
    with the padding at the end, which is all the text it is given here
    (the output of [urlsafe_b64encode]).  CPython's decoder also skips
    characters outside the alphabet; such text raises in this model. *)
Fixpoint urlsafe_b64decode (s : bytes) : outcome bytes :=
  match s with
  | [] => Return []
  | c1 :: c2 :: c3 :: c4 :: rest =>
      match index_of c1, index_of c2 with
      | Some i1, Some i2 =>
          match index_of c3, index_of c4 with
          | Some i3, Some i4 =>
              let n := digits i1 i2 i3 i4 in
              match urlsafe_b64decode rest with
              | Return bs =>
                  Return (byte_of_N (n / 65536) :: byte_of_N (n / 256)
                            :: byte_of_N n :: bs)
              | Raise e => Raise e
              end
          | Some i3, None =>
              match rest with
              | [] =>
                  if Byte.eqb c4 pad_char
                  then let n := digits i1 i2 i3 0 in
                       Return [byte_of_N (n / 65536); byte_of_N (n / 256)]
                  else Raise binascii_Error
              | _ :: _ => Raise binascii_Error
              end
          | None, _ =>
              match rest with
              | [] =>
                  if (Byte.eqb c3 pad_char && Byte.eqb c4 pad_char)%bool
                  then let n := digits i1 i2 0 0 in
                       Return [byte_of_N (n / 65536)]
                  else Raise binascii_Error
              | _ :: _ => Raise binascii_Error
              end
          end
      | _, _ => Raise binascii_Error
      end
  | _ => Raise binascii_Error
  end.

(** The number base64 text denotes: its characters are digits in base 64,
    most significant first (a character outside the alphabet counts for
    zero); and the number of [=] that end the encoding of a sequence of
    octets. *)
Definition digit (c : byte) : N :=
  match index_of c with Some i => i | None => 0 end.



End base64.

(** The characters of URL-safe base64 text: the alphabet and the padding. *)
Definition url_safe (c : N) : bool :=
  existsb (N.eqb c)
    (ascii_text (base64.urlsafe_alphabet ++ [base64.pad_char])).

Module Struct.
Local Open Scope N_scope.

Definition struct_error : exn :=
  mkExn "struct.error" (lit "argument out of range").

(** The [k] octets of [n] in base 256, most significant first. *)
Fixpoint big_endian (k : nat) (n : N) : bytes :=
  match k with
  | O => []
  | S k' => big_endian k' (n / 256) ++ [byte_of_N n]
  end.

Definition from_big_endian (b : bytes) : N :=
  fold_left (fun acc x => acc * 256 + Byte.to_N x) b 0.

(** [struct.pack(">Q", n)]: eight octets, big-endian; an integer that does
    not fit raises. *)
Definition pack_Q (n : N) : outcome bytes :=
  if n <? 2 ^ 64 then Return (big_endian 8 n) else Raise struct_error.

(** [struct.unpack(">Q", b)]. *)
Definition unpack_Q (b : bytes) : outcome N :=
  if Nat.eqb (List.length b) 8 then Return (from_big_endian b)
  else Raise (mkExn "struct.error"
                    (lit "unpack requires a buffer of 8 bytes")).

End Struct.

Module padding.

(** [algorithms.AES.block_size // 8]. *)
Definition block_len : nat := 16.

Definition ValueError_padding : exn :=
  mkExn "ValueError" (lit "Invalid padding bytes.").

(** [padding.PKCS7(128).padder()], [update] then [finalize]: between one
    and sixteen octets are appended, each holding their number. *)
Definition pad (data : bytes) : bytes :=
  let n := block_len - (List.length data mod block_len) in
  data ++ repeat (byte_of_N (N.of_nat n)) n.

(** [padding.PKCS7(128).unpadder()], [update] then [finalize]. *)
Definition unpad (data : bytes) : outcome bytes :=
  match rev data with
  | [] => Raise ValueError_padding
  | l :: _ =>
      let n := N.to_nat (Byte.to_N l) in
      if (Nat.eqb (List.length data mod block_len) 0
          && Nat.leb 1 n && Nat.leb n block_len
          && forallb (Byte.eqb l) (slice_last n data))%bool
      then Return (slice_but_last n data)
      else Raise ValueError_padding
  end.

End padding.

(* ------------------------------------------------------------------ *)
(** ** The outside world and the handlers' monad *)
(* ------------------------------------------------------------------ *)

(** What [requests.get] hands back: the fields the application reads. *)
Record requests_Response : Type :=
  mkResponse { status_code : Z; text : str }.

(** Everything a handler can observe besides its request: the octets
    [os.urandom] delivers, how many of them were already delivered, the
    clock, and what the network answers to a GET of a URL under a timeout
    (a response, or the exception [requests] raises). *)
Record World : Type := mkWorld {
  entropy : nat -> byte;
  drawn : nat;
  clock : N;
  network : str -> Z -> outcome requests_Response
}.

(** A computation that may read and advance the world and may raise. *)
Definition App (A : Type) : Type := World -> outcome A * World.

Definition ret {A} (a : A) : App A := fun w => (Return a, w).

Definition raise {A} (e : exn) : App A := fun w => (Raise e, w).

Definition bind {A B} (c : App A) (k : A -> App B) : App B :=
  fun w =>
    match c w with
    | (Return a, w') => k a w'
    | (Raise e, w') => (Raise e, w')
    end.

Definition lift {A} (o : outcome A) : App A := fun w => (o, w).

(** [try: c  except Exception as e: h e]. *)
Definition try_except {A} (c : App A) (h : exn -> App A) : App A :=
  fun w =>
    match c w with
    | (Return a, w') => (Return a, w')
    | (Raise e, w') => h e w'
    end.

Declare Scope app_scope.
Delimit Scope app_scope with app.
Notation "x <- c ;; k" := (bind c (fun x => k))
  (at level 61, c at next level, right associativity) : app_scope.
Local Open Scope app_scope.

(** [os.urandom(n)]: the next [n] octets of the entropy source. *)
Definition os_urandom (n : nat) : App bytes :=
  fun w =>
    (Return (map (entropy w) (seq (drawn w) n)),
     mkWorld (entropy w) (drawn w + n) (clock w) (network w)).

(** [int(time.time())]. *)
Definition time_time : App N := fun w => (Return (clock w), w).

(** [requests.get(url, timeout=t)]. *)
Definition requests_get (url : str) (timeout : Z) : App requests_Response :=
  fun w => (network w url timeout, w).

(* ------------------------------------------------------------------ *)
(** ** Library interfaces *)
(* ------------------------------------------------------------------ *)

(** [flask.render_template_string]: Jinja2 evaluates the source text and
    returns the rendered text, or raises (a syntax error, an undefined
    name used in an expression, ...).  An instance stands for the engine
    in the state the process is in when the call is made (the request
    context, the configuration, the generator behind the [random]
    filter): two calls are two instances, which may or may not agree. *)
Class TemplateEngine : Type := {
  render_template_string : str -> outcome str
}.

(** The loader classes of PyYAML. *)
Inductive Loader : Type := BaseLoader | SafeLoader | FullLoader | UnsafeLoader.

(** [yaml.load(stream, Loader=l)] yields a Python object or raises;
    [format(obj, '')] is what an f-string does with a value, and raises
    when the [__repr__] of the object does.  An instance stands for the
    library in the state the process is in when the call is made: what a
    document makes of the objects of the process is inside [yaml_load] and
    [format]. *)
Class YAML : Type := {
  pyobject : Type;
  yaml_load : str -> Loader -> outcome pyobject;
  format : pyobject -> outcome str
}.

(** The two primitives under Fernet, both from the OpenSSL backend:
    AES-128 in CBC mode on whole blocks, and HMAC with SHA-256. *)
Class CryptoBackend : Type := {
  AES_CBC_encrypt : bytes -> bytes -> bytes -> bytes;
  AES_CBC_decrypt : bytes -> bytes -> bytes -> bytes;
  HMAC_SHA256 : bytes -> bytes -> bytes
}.

(** What Fernet relies on: on a 16-octet key and IV and whole blocks,
    decryption undoes encryption and the ciphertext is as long as the
    plaintext; the tag has the 32 octets of SHA-256. *)
Class LawfulBackend (backend : CryptoBackend) : Prop := {
  decrypt_encrypt : forall key iv data,
    List.length key = 16 -> List.length iv = 16 ->
    List.length data mod 16 = 0 ->
    AES_CBC_decrypt key iv (AES_CBC_encrypt key iv data) = data;
  length_encrypt : forall key iv data,
    List.length key = 16 -> List.length iv = 16 ->
    List.length data mod 16 = 0 ->
    List.length (AES_CBC_encrypt key iv data) = List.length data;
  length_hmac : forall key data, List.length (HMAC_SHA256 key data) = 32
}.

(** A YAML library with its loading function replaced. *)
Definition with_load (Y : YAML)
    (load : str -> Loader -> outcome (@pyobject Y)) : YAML :=
  {| pyobject := @pyobject Y; yaml_load := load; format := @format Y |}.

(* ------------------------------------------------------------------ *)
(** ** cryptography.fernet *)
(* ------------------------------------------------------------------ *)

Module Fernet.
Import base64 Struct padding.

(** A [Fernet] instance holds the two halves of its key. *)
Record t : Type := mk { signing_key : bytes; encryption_key : bytes }.

Definition InvalidToken : exn := mkExn "InvalidToken" [].

(** The octets under the base64 text of a token: the version, the
    timestamp, the IV, the ciphertext and the tag. *)
Definition frame (stamp iv ciphertext tag : bytes) : bytes :=
  x80 :: stamp ++ iv ++ ciphertext ++ tag.

(** [Fernet.generate_key()]. *)
Definition generate_key : App bytes :=
  b <- os_urandom 32 ;;
  ret (urlsafe_b64encode b).

(** [Fernet(key)]. *)
Definition new (key : bytes) : outcome t :=
  match urlsafe_b64decode key with
  | Raise e => Raise e
  | Return k =>
      if Nat.eqb (List.length k) 32
      then Return (mk (slice_to 16 k) (slice_from 16 k))
      else Raise (mkExn "ValueError"
             (lit "Fernet key must be 32 url-safe base64-encoded bytes."))
  end.

Section WithBackend.
Context {backend : CryptoBackend}.

(** [_encrypt_from_parts(data, current_time, iv)]. *)
Definition encrypt_from_parts (f : t) (data : bytes) (current_time : N)
    (iv : bytes) : outcome bytes :=
  let padded_data := pad data in
  let ciphertext := AES_CBC_encrypt (encryption_key f) iv padded_data in
  match pack_Q current_time with
  | Raise e => Raise e
  | Return stamp =>
      let basic_parts := x80 :: stamp ++ iv ++ ciphertext in
      let hmac := HMAC_SHA256 (signing_key f) basic_parts in
      Return (urlsafe_b64encode (basic_parts ++ hmac))
  end.

(** [encrypt_at_time(data, current_time)]. *)
Definition encrypt_at_time (f : t) (data : bytes) (current_time : N)
    : App bytes :=
  iv <- os_urandom 16 ;;
  lift (encrypt_from_parts f data current_time iv).

(** [encrypt(data)]. *)
Definition encrypt (f : t) (data : bytes) : App bytes :=
  now <- time_time ;;
  encrypt_at_time f data now.

(** [decrypt(token)] with no time-to-live: the token is decoded, its
    version octet and timestamp field are read, the signature over
    everything but the last 32 octets is checked, and the ciphertext
    between the IV and the signature is decrypted and unpadded. *)
Definition decrypt (f : t) (token : bytes) : outcome bytes :=
  match urlsafe_b64decode token with
  | Raise _ => Raise InvalidToken
  | Return data =>
      match data with
      | x80 :: _ =>
          match unpack_Q (slice_to 8 (slice_from 1 data)) with
          | Raise _ => Raise InvalidToken
          | Return _ =>
              if list_eq_dec Byte.byte_eq_dec
                   (HMAC_SHA256 (signing_key f) (slice_but_last 32 data))
                   (slice_last 32 data)
              then
                let iv := slice_to 16 (slice_from 9 data) in
                let ciphertext :=
                  slice_but_last 32 (slice_from 25 data) in
                if Nat.eqb (List.length ciphertext mod block_len) 0
                then
                  match unpad (AES_CBC_decrypt (encryption_key f) iv
                                 ciphertext) with
                  | Raise _ => Raise InvalidToken
                  | Return plaintext => Return plaintext
                  end
                else Raise InvalidToken
              else Raise InvalidToken
          end
      | _ => Raise InvalidToken
      end
  end.

End WithBackend.

End Fernet.

(* ------------------------------------------------------------------ *)
(** ** The backend: SHA-256 (FIPS 180-4), HMAC (RFC 2104), AES-128
       (FIPS 197) and cipher block chaining *)
(* ------------------------------------------------------------------ *)

Module SHA256.
Import Struct.
Local Open Scope N_scope.

(** Words of 32 bits, as numbers below 2^32; addition wraps around. *)
Definition word := N.
Definition trunc (x : N) : word := x mod 4294967296.
Definition add (x y : word) : word := trunc (x + y).
Definition rotr (n : N) (x : word) : word :=
  N.lor (N.shiftr x n) (trunc (N.shiftl x (32 - n))).
Definition shr (n : N) (x : word) : word := N.shiftr x n.
Definition lnot (x : word) : word := N.lxor x 4294967295.

Definition Ch (x y z : word) : word :=
  N.lxor (N.land x y) (N.land (lnot x) z).
Definition Maj (x y z : word) : word :=
  N.lxor (N.lxor (N.land x y) (N.land x z)) (N.land y z).
Definition Sigma0 (x : word) : word :=
  N.lxor (N.lxor (rotr 2 x) (rotr 13 x)) (rotr 22 x).
Definition Sigma1 (x : word) : word :=
  N.lxor (N.lxor (rotr 6 x) (rotr 11 x)) (rotr 25 x).
Definition sigma0 (x : word) : word :=
  N.lxor (N.lxor (rotr 7 x) (rotr 18 x)) (shr 3 x).
Definition sigma1 (x : word) : word :=
  N.lxor (N.lxor (rotr 17 x) (rotr 19 x)) (shr 10 x).

(** The first 64 primes. *)
Definition is_prime (n : nat) : bool :=
  (2 <=? n)%nat
  && forallb (fun d => negb (Nat.eqb (n mod d) 0)) (seq 2 (n - 2)).
Definition primes : list N := map N.of_nat (filter is_prime (seq 2 310)).

(** The integer cube root, bit by bit from the top. *)
Fixpoint cube_root_bits (bits : nat) (n r : N) : N :=
  match bits with
  | O => r
  | S b =>
      let r' := r + 2 ^ N.of_nat b in
      cube_root_bits b n (if r' * r' * r' <=? n then r' else r)
  end.

(** The first 32 bits of the fractional part of the cube root of a prime,
    and of its square root. *)
Definition frac_cube_root (p : N) : word :=
  trunc (cube_root_bits 40 (p * 2 ^ 96) 0).
Definition frac_square_root (p : N) : word :=
  trunc (N.sqrt (p * 2 ^ 64)).

(** The round constants and the initial hash value. *)
Definition K : list word := Eval vm_compute in map frac_cube_root primes.
Definition H0 : list word :=
  Eval vm_compute in map frac_square_root (firstn 8 primes).

(** Padding: a one bit, zeros, and the length in bits on 64 bits. *)
Definition pad (m : bytes) : bytes :=
  let l := List.length m in
  let zeros := ((64 - ((l + 9) mod 64)) mod 64)%nat in
  m ++ [x80] ++ repeat x00 zeros ++ big_endian 8 (8 * N.of_nat l).

(** The first [n] big-endian words of a block. *)
Fixpoint words_of (n : nat) (b : bytes) : list word :=
  match n with
  | O => []
  | S n' => from_big_endian (firstn 4 b) :: words_of n' (skipn 4 b)
  end.

(** The message schedule: word [t] is made of words [t-2], [t-7], [t-15]
    and [t-16]. *)
Definition nth_back (ws : list word) (i : nat) : word :=
  nth (List.length ws - i) ws 0.

Fixpoint extend (n : nat) (ws : list word) : list word :=
  match n with
  | O => ws
  | S n' =>
      extend n' (ws ++ [add (add (sigma1 (nth_back ws 2)) (nth_back ws 7))
                            (add (sigma0 (nth_back ws 15)) (nth_back ws 16))])
  end.

Definition state : Type :=
  (word * word * word * word * word * word * word * word)%type.

(** One round of the compression function, on a round constant and a
    word of the schedule. *)
Definition round (s : state) (kw : word * word) : state :=
  let '(a, b, c, d, e, f, g, h) := s in
  let t1 := add (add (add h (Sigma1 e)) (add (Ch e f g) (fst kw))) (snd kw) in
  let t2 := add (Sigma0 a) (Maj a b c) in
  (add t1 t2, a, b, c, add d t1, e, f, g).

Definition compress (s : state) (block : bytes) : state :=
  let w := extend 48 (words_of 16 block) in
  let '(a, b, c, d, e, f, g, h) := fold_left round (combine K w) s in
  let '(a0, b0, c0, d0, e0, f0, g0, h0) := s in
  (add a0 a, add b0 b, add c0 c, add d0 d,
   add e0 e, add f0 f, add g0 g, add h0 h).

Fixpoint blocks (n : nat) (s : state) (b : bytes) : state :=
  match n with
  | O => s
  | S n' => blocks n' (compress s (firstn 64 b)) (skipn 64 b)
  end.

Definition initial : state :=
  match H0 with
  | [a; b; c; d; e; f; g; h] => (a, b, c, d, e, f, g, h)
  | _ => (0, 0, 0, 0, 0, 0, 0, 0)
  end.

(** [hashlib.sha256(m).digest()]. *)
Definition digest (m : bytes) : bytes :=
  let p := pad m in
  let '(a, b, c, d, e, f, g, h) := blocks (List.length p / 64) initial p in
  big_endian 4 a ++ big_endian 4 b ++ big_endian 4 c ++ big_endian 4 d
  ++ big_endian 4 e ++ big_endian 4 f ++ big_endian 4 g ++ big_endian 4 h.

End SHA256.

Module HMAC.
Definition xor_byte (a b : byte) : byte :=
  byte_of_N (N.lxor (Byte.to_N a) (Byte.to_N b)).

(** HMAC with SHA-256 (RFC 2104): the key is hashed when longer than a
    block and filled with zeros to 64 octets. *)
Definition sha256 (key data : bytes) : bytes :=
  let k := if (64 <? List.length key)%nat then SHA256.digest key else key in
  let k := k ++ repeat x00 (64 - List.length k) in
  SHA256.digest (map (xor_byte x5c) k
                 ++ SHA256.digest (map (xor_byte x36) k ++ data)).
End HMAC.

Module AES.

(** The eight bits of an octet, least significant first. *)
Definition bits : Type :=
  (bool * (bool * (bool * (bool * (bool * (bool * (bool * bool))))))).

Definition lift1 (f : bits -> bits) (a : byte) : byte :=
  Byte.of_bits (f (Byte.to_bits a)).
Definition lift2 (f : bits -> bits -> bits) (a b : byte) : byte :=
  Byte.of_bits (f (Byte.to_bits a) (Byte.to_bits b)).

Definition xor_bits (a b : bits) : bits :=
  let '(a0, (a1, (a2, (a3, (a4, (a5, (a6, a7))))))) := a in
  let '(b0, (b1, (b2, (b3, (b4, (b5, (b6, b7))))))) := b in
  (xorb a0 b0, (xorb a1 b1, (xorb a2 b2, (xorb a3 b3,
   (xorb a4 b4, (xorb a5 b5, (xorb a6 b6, xorb a7 b7))))))).

(** Multiplication by x in GF(2^8), modulo x^8 + x^4 + x^3 + x + 1. *)
Definition xtime_bits (a : bits) : bits :=
  let '(a0, (a1, (a2, (a3, (a4, (a5, (a6, a7))))))) := a in
  (a7, (xorb a0 a7, (a1, (xorb a2 a7, (xorb a3 a7, (a4, (a5, a6))))))).

Definition xor : byte -> byte -> byte := lift2 xor_bits.
Definition xtime : byte -> byte := lift1 xtime_bits.

Definition mul2 (a : byte) : byte := xtime a.
Definition mul3 (a : byte) : byte := xor (xtime a) a.
Definition mul9 (a : byte) : byte := xor (xtime (xtime (xtime a))) a.
Definition mul11 (a : byte) : byte :=
  xor (xor (xtime (xtime (xtime a))) (xtime a)) a.
Definition mul13 (a : byte) : byte :=
  xor (xor (xtime (xtime (xtime a))) (xtime (xtime a))) a.
Definition mul14 (a : byte) : byte :=
  xor (xor (xtime (xtime (xtime a))) (xtime (xtime a))) (xtime a).

(** The product in GF(2^8). *)
Definition gmul (a b : byte) : byte :=
  let '(b0, (b1, (b2, (b3, (b4, (b5, (b6, b7))))))) := Byte.to_bits b in
  let term (bit : bool) (x : byte) := if bit then x else x00 in
  let a1 := xtime a in let a2 := xtime a1 in let a3 := xtime a2 in
  let a4 := xtime a3 in let a5 := xtime a4 in let a6 := xtime a5 in
  let a7 := xtime a6 in
  xor (term b0 a) (xor (term b1 a1) (xor (term b2 a2) (xor (term b3 a3)
    (xor (term b4 a4) (xor (term b5 a5) (xor (term b6 a6) (term b7 a7))))))).

Definition all_bytes : bytes :=
  map (fun n => byte_of_N (N.of_nat n)) (seq 0 256).

(** The inverse in GF(2^8), with 0 for 0. *)
Definition inverse (a : byte) : byte :=
  match find (fun y => Byte.eqb (gmul a y) x01) all_bytes with
  | Some y => y
  | None => x00
  end.

(** The affine map of the S-box. *)
Definition affine_bits (s : bits) : bits :=
  let '(s0, (s1, (s2, (s3, (s4, (s5, (s6, s7))))))) := s in
  let f (a b c d e k : bool) := xorb (xorb (xorb (xorb (xorb a b) c) d) e) k in
  (f s0 s4 s5 s6 s7 true, (f s1 s5 s6 s7 s0 true, (f s2 s6 s7 s0 s1 false,
   (f s3 s7 s0 s1 s2 false, (f s4 s0 s1 s2 s3 false,
    (f s5 s1 s2 s3 s4 true, (f s6 s2 s3 s4 s5 true,
     f s7 s3 s4 s5 s6 false))))))).

Definition sub_byte (a : byte) : byte := lift1 affine_bits (inverse a).

Definition sbox_table : bytes := Eval vm_compute in map sub_byte all_bytes.

Definition position (t : bytes) (y : byte) : byte :=
  match find (fun x => Byte.eqb (nth (N.to_nat (Byte.to_N x)) t x00) y)
             all_bytes with
  | Some x => x
  | None => x00
  end.

Definition inv_sbox_table : bytes :=
  Eval vm_compute in map (position sbox_table) all_bytes.

Definition sbox (a : byte) : byte :=
  nth (N.to_nat (Byte.to_N a)) sbox_table x00.
Definition inv_sbox (a : byte) : byte :=
  nth (N.to_nat (Byte.to_N a)) inv_sbox_table x00.

(** A column of the state, and the state: four columns. *)
Definition column : Type := (byte * byte * byte * byte).
Definition state : Type := (column * column * column * column).

Definition map_column (f : byte -> byte) (c : column) : column :=
  let '(a, b, c, d) := c in (f a, f b, f c, f d).
Definition map_state (f : column -> column) (s : state) : state :=
  let '(c0, c1, c2, c3) := s in (f c0, f c1, f c2, f c3).

Definition xor_column (x y : column) : column :=
  let '(a, b, c, d) := x in
  let '(a', b', c', d') := y in
  (xor a a', xor b b', xor c c', xor d d').

Definition add_round_key (k s : state) : state :=
  let '(c0, c1, c2, c3) := s in
  let '(k0, k1, k2, k3) := k in
  (xor_column c0 k0, xor_column c1 k1, xor_column c2 k2, xor_column c3 k3).

Definition sub_bytes : state -> state := map_state (map_column sbox).
Definition inv_sub_bytes : state -> state := map_state (map_column inv_sbox).

(** Row [r] moves [r] columns to the left. *)
Definition shift_rows (s : state) : state :=
  let '((a0, a1, a2, a3), (b0, b1, b2, b3),
        (c0, c1, c2, c3), (d0, d1, d2, d3)) := s in
  ((a0, b1, c2, d3), (b0, c1, d2, a3), (c0, d1, a2, b3), (d0, a1, b2, c3)).

Definition inv_shift_rows (s : state) : state :=
  let '((a0, a1, a2, a3), (b0, b1, b2, b3),
        (c0, c1, c2, c3), (d0, d1, d2, d3)) := s in
  ((a0, d1, c2, b3), (b0, a1, d2, c3), (c0, b1, a2, d3), (d0, c1, b2, a3)).

Definition mix_column (c : column) : column :=
  let '(a, b, c, d) := c in
  (xor (xor (mul2 a) (mul3 b)) (xor c d),
   xor (xor a (mul2 b)) (xor (mul3 c) d),
   xor (xor a b) (xor (mul2 c) (mul3 d)),
   xor (xor (mul3 a) b) (xor c (mul2 d))).

Definition inv_mix_column (c : column) : column :=
  let '(a, b, c, d) := c in
  (xor (xor (mul14 a) (mul11 b)) (xor (mul13 c) (mul9 d)),
   xor (xor (mul9 a) (mul14 b)) (xor (mul11 c) (mul13 d)),
   xor (xor (mul13 a) (mul9 b)) (xor (mul14 c) (mul11 d)),
   xor (xor (mul11 a) (mul13 b)) (xor (mul9 c) (mul14 d))).

Definition mix_columns : state -> state := map_state mix_column.
Definition inv_mix_columns : state -> state := map_state inv_mix_column.

(** The round constants: the powers of x. *)
Definition rcon : bytes := [x01; x02; x04; x08; x10; x20; x40; x80; x1b; x36].

(** The key schedule of AES-128: each round key from the one before. *)
Definition next_round_key (rc : byte) (k : state) : state :=
  let '(w0, w1, w2, w3) := k in
  let '(a, b, c, d) := w3 in
  let w0' := xor_column w0 (xor (sbox b) rc, sbox c, sbox d, sbox a) in
  let w1' := xor_column w1 w0' in
  let w2' := xor_column w2 w1' in
  let w3' := xor_column w3 w2' in
  (w0', w1', w2', w3').

Fixpoint expand (rcs : bytes) (k : state) : list state :=
  match rcs with
  | [] => [k]
  | rc :: rcs' => k :: expand rcs' (next_round_key rc k)
  end.

(** The rounds after the first key addition: each substitutes, shifts,
    mixes and adds its key; the last one does not mix. *)
Fixpoint rounds (ks : list state) (s : state) : state :=
  match ks with
  | [] => s
  | k :: ks' =>
      match ks' with
      | [] => add_round_key k (shift_rows (sub_bytes s))
      | _ :: _ =>
          rounds ks' (add_round_key k (mix_columns (shift_rows (sub_bytes s))))
      end
  end.

Definition cipher (ks : list state) (s : state) : state :=
  match ks with
  | [] => s
  | k :: ks' => rounds ks' (add_round_key k s)
  end.

(** The inverse cipher, as a recursion on the same round keys: the rounds
    are undone from the last to the first. *)
Fixpoint inv_rounds (ks : list state) (s : state) : state :=
  match ks with
  | [] => s
  | k :: ks' =>
      match ks' with
      | [] => inv_sub_bytes (inv_shift_rows (add_round_key k s))
      | _ :: _ =>
          inv_sub_bytes (inv_shift_rows (inv_mix_columns
            (add_round_key k (inv_rounds ks' s))))
      end
  end.

Definition inv_cipher (ks : list state) (s : state) : state :=
  match ks with
  | [] => s
  | k :: ks' => add_round_key k (inv_rounds ks' s)
  end.

(** A block of 16 octets fills the state column by column.  Anything else
    reads as zeros: Fernet passes keys and blocks of 16 octets only. *)
Definition state_of_block (b : bytes) : state :=
  match b with
  | [a0; a1; a2; a3; b0; b1; b2; b3; c0; c1; c2; c3; d0; d1; d2; d3] =>
      ((a0, a1, a2, a3), (b0, b1, b2, b3), (c0, c1, c2, c3), (d0, d1, d2, d3))
  | _ => ((x00, x00, x00, x00), (x00, x00, x00, x00),
          (x00, x00, x00, x00), (x00, x00, x00, x00))
  end.

Definition block_of_state (s : state) : bytes :=
  let '((a0, a1, a2, a3), (b0, b1, b2, b3),
        (c0, c1, c2, c3), (d0, d1, d2, d3)) := s in
  [a0; a1; a2; a3; b0; b1; b2; b3; c0; c1; c2; c3; d0; d1; d2; d3].

Definition encrypt_block (key block : bytes) : bytes :=
  block_of_state (cipher (expand rcon (state_of_block key))
                         (state_of_block block)).

Definition decrypt_block (key block : bytes) : bytes :=
  block_of_state (inv_cipher (expand rcon (state_of_block key))
                             (state_of_block block)).

End AES.

Module CBC.

Definition xor_bytes (a b : bytes) : bytes :=
  map (fun p => AES.xor (fst p) (snd p)) (combine a b).

(** Cipher block chaining: each block is mixed with the ciphertext of the
    one before, the first with the IV. *)
Fixpoint encrypt_blocks (n : nat) (key prev data : bytes) : bytes :=
  match n with
  | O => []
  | S n' =>
      let c := AES.encrypt_block key (xor_bytes (firstn 16 data) prev) in
      c ++ encrypt_blocks n' key c (skipn 16 data)
  end.

Fixpoint decrypt_blocks (n : nat) (key prev data : bytes) : bytes :=
  match n with
  | O => []
  | S n' =>
      let c := firstn 16 data in
      xor_bytes (AES.decrypt_block key c) prev
        ++ decrypt_blocks n' key c (skipn 16 data)
  end.

Definition encrypt (key iv data : bytes) : bytes :=
  encrypt_blocks (List.length data / 16) key iv data.

Definition decrypt (key iv data : bytes) : bytes :=
  decrypt_blocks (List.length data / 16) key iv data.

End CBC.

(** The backend the application runs on: what OpenSSL computes for
    [Cipher(algorithms.AES(key), modes.CBC(iv))] on whole blocks and for
    [HMAC(key, hashes.SHA256())]. *)
Definition openssl : CryptoBackend :=
  {| AES_CBC_encrypt := CBC.encrypt;
     AES_CBC_decrypt := CBC.decrypt;
     HMAC_SHA256 := HMAC.sha256 |}.

(* ------------------------------------------------------------------ *)
(** ** Flask: requests, responses *)
(* ------------------------------------------------------------------ *)

(** A GET request: the path and the query parameters in the order of the
    query string ([request.args] is a multi-dictionary). *)
Record Request : Type := mkRequest { path : str; args : list (str * str) }.

(** The request [GET p?q]. *)
Definition GET (p : string) (q : list (str * str)) : Request :=
  mkRequest (lit p) q.

(** [request.args.get(key, default)]: the first value of [key], or
    [default] when the query has none. *)
Fixpoint args_get (a : list (str * str)) (key default : str) : str :=
  match a with
  | [] => default
  | (k, v) :: a' => if str_eqb k key then v else args_get a' key default
  end.

(** What the framework sends for a request: the text a view function
    returned, under status 200; its own page under 404 when no rule matches
    the path; its own page under 500 when the view function raised. *)
Inductive Response : Type :=
| Ok (body : str)
| NotFound
| InternalServerError (e : exn).

Definition status (r : Response) : Z :=
  match r with
  | Ok _ => 200
  | NotFound => 404
  | InternalServerError _ => 500
  end.

Definition make_response (o : outcome str) : Response :=
  match o with
  | Return body => Ok body
  | Raise e => InternalServerError e
  end.

(* ------------------------------------------------------------------ *)
(** ** app.py *)
(* ------------------------------------------------------------------ *)

Definition home_lines : list string :=
  [ "    <h1>Dependency Scanning Demo</h1>";
    "    <p>This app uses intentionally vulnerable dependencies.</p>";
    "    <ul>";
    "        <li>Flask 2.0.1 - Has known vulnerabilities</li>";
    "        <li>Jinja2 2.11.3 - Template injection vulnerability</li>";
    "        <li>Pillow 8.1.2 - Multiple CVEs</li>";
    "        <li>PyYAML 5.3.1 - Arbitrary code execution</li>";
    "        <li>cryptography 3.3.2 - Security vulnerabilities</li>";
    "        <li>Django 2.2.0 - Multiple critical CVEs</li>";
    "    </ul>";
    "    <p><a href=" ++ dquote ++ "/template" ++ dquote
      ++ ">Test Template Rendering</a></p>";
    "    <p><a href=" ++ dquote ++ "/yaml" ++ dquote
      ++ ">Test YAML Parsing</a></p>";
    "    <p><a href=" ++ dquote ++ "/fetch" ++ dquote
      ++ ">Test HTTP Request</a></p>";
    "    " ]%string.

(** The triple-quoted literal of [home]: a line feed, then the lines, each
    ended by a line feed but the last. *)
Definition home_text : str :=
  lit (String.concat "" (map (fun l => newline ++ l)%string home_lines)).

(** [@app.route('/')]. *)
Definition home : App str := ret home_text.

(** The targets of the links of a page: what stands between [href=] with
    its opening quote and the closing quote. *)
Fixpoint until_quote (s : str) : str :=
  match s with
  | [] => []
  | c :: s' => if N.eqb c 34 then [] else c :: until_quote s'
  end.

Fixpoint hrefs (s : str) : list str :=
  match s with
  | [] => []
  | _ :: s' =>
      if startswith (lit ("href=" ++ dquote)) s
      then until_quote (slice_from 6 s) :: hrefs s'
      else hrefs s'
  end.

Section Handlers.
Context {jinja : TemplateEngine} {pyyaml : YAML} {backend : CryptoBackend}.

(** [@app.route('/template')]. *)
Definition template_test (request : Request) : App str :=
  let template := args_get (args request) (lit "template")
                           (lit "Hello, World!") in
  lift (render_template_string template).

(** [@app.route('/yaml')]. *)
Definition yaml_test (request : Request) : App str :=
  let data := args_get (args request) (lit "data") (lit "message: Hello") in
  try_except
    (parsed <- lift (yaml_load data FullLoader) ;;
     shown <- lift (format parsed) ;;
     ret (lit "Parsed YAML: " ++ shown))
    (fun e => ret (lit "Error: " ++ exn_str e)).

(** [@app.route('/fetch')]. *)
Definition fetch_url (request : Request) : App str :=
  let url := args_get (args request) (lit "url")
                      (lit "https://httpbin.org/get") in
  try_except
    (response <- requests_get url 5 ;;
     ret (lit "Status: " ++ str_of_int (status_code response)
          ++ lit "<br>Content: " ++ slice_to 200 (text response)))
    (fun e => ret (lit "Error: " ++ exn_str e)).

(** [@app.route('/encrypt')]. *)
Definition encrypt_test (request : Request) : App str :=
  key <- Fernet.generate_key ;;
  cipher <- lift (Fernet.new key) ;;
  let message := args_get (args request) (lit "message")
                          (lit "Secret data") in
  plaintext <- lift (str_encode message) ;;
  encrypted <- Fernet.encrypt cipher plaintext ;;
  shown <- lift (bytes_decode encrypted) ;;
  ret (lit "Encrypted: " ++ shown).

(** The rules registered by the [@app.route] decorators. *)
Inductive endpoint : Type :=
  ep_home | ep_template | ep_yaml | ep_fetch | ep_encrypt.

Definition url_map : list (string * endpoint) :=
  [ ("/", ep_home); ("/template", ep_template); ("/yaml", ep_yaml);
    ("/fetch", ep_fetch); ("/encrypt", ep_encrypt) ]%string.

Fixpoint match_rule (rules : list (string * endpoint)) (p : str)
    : option endpoint :=
  match rules with
  | [] => None
  | (rule, ep) :: rules' =>
      if str_eqb (lit rule) p then Some ep else match_rule rules' p
  end.

Definition view_function (ep : endpoint) (request : Request) : App str :=
  match ep with
  | ep_home => home
  | ep_template => template_test request
  | ep_yaml => yaml_test request
  | ep_fetch => fetch_url request
  | ep_encrypt => encrypt_test request
  end.

(** Serving one GET request: find the rule of the path, run its view
    function, and turn what it returns or raises into a response. *)
Definition app (request : Request) (w : World) : Response * World :=
  match match_rule url_map (path request) with
  | None => (NotFound, w)
  | Some ep =>
      let (o, w') := view_function ep request w in
      (make_response o, w')
  end.

End Handlers.

(** The parameter each handler reads, with its default. *)
Definition template_of (request : Request) : str :=
  args_get (args request) (lit "template") (lit "Hello, World!").
Definition data_of (request : Request) : str :=
  args_get (args request) (lit "data") (lit "message: Hello").
Definition url_of (request : Request) : str :=
  args_get (args request) (lit "url") (lit "https://httpbin.org/get").
Definition message_of (request : Request) : str :=
  args_get (args request) (lit "message") (lit "Secret data").

(** What the YAML library makes of a document for the handler: the
    object [FullLoader] builds from it, rendered as text, or the exception
    of the load or of the rendering. *)
Definition load_and_format {pyyaml : YAML} (data : str) : outcome str :=
  match yaml_load data FullLoader with
  | Return parsed => format parsed
  | Raise e => Raise e
  end.

(** Two invocations of a handler, one after the other. *)
Definition twice {A} (h : App A) : App (A * A) :=
  first <- h ;;
  second <- h ;;
  ret (first, second).

(** The octets the next call of [encrypt_test] draws: 32 for the key, then
    16 for the IV. *)
Definition next_key_material (w : World) : bytes :=
  map (entropy w) (seq (drawn w) 32).

Definition next_iv (w : World) : bytes :=
  map (entropy w) (seq (drawn w + 32) 16).

(** The world with [n] more octets of entropy consumed. *)
Definition advance (n : nat) (w : World) : World :=
  mkWorld (entropy w) (drawn w + n) (clock w) (network w).

(** The key [Fernet.generate_key()] returns in world [w], and the token
    [Fernet] builds under that key for a plaintext. *)
Definition key_of (w : World) : bytes :=
  base64.urlsafe_b64encode (next_key_material w).

Definition token_of {backend : CryptoBackend} (w : World) (plaintext : bytes)
    : outcome bytes :=
  Fernet.encrypt_from_parts
    (Fernet.mk (slice_to 16 (next_key_material w))
               (slice_from 16 (next_key_material w)))
    plaintext (clock w) (next_iv w).




(* ------------------------------------------------------------------ *)
(** ** Sample libraries and worlds, for concrete runs *)
(* ------------------------------------------------------------------ *)

Module Sample.

Definition TemplateSyntaxError : exn :=
  mkExn "TemplateSyntaxError" (lit "unexpected 'end of template'").

(** A template engine without expressions: text with no brace renders as
    itself, as it does under Jinja2, and anything else is refused in the
    way Jinja2 refuses an unterminated [{{]. *)
Definition plain_text_engine : TemplateEngine :=
  {| render_template_string := fun source =>
       if contains (lit "{") source then Raise TemplateSyntaxError
       else Return source |}.

(** A YAML library that knows one-line documents: [key: value] is a
    mapping with one entry, text without a colon is a scalar, and a second
    [: ] on the line is the scanner error of PyYAML. *)
Inductive value : Type :=
| Scalar (s : str)
| Mapping (k v : str).

Fixpoint split_colon (s : str) : option (str * str) :=
  match s with
  | [] => None
  | c :: s' =>
      if startswith (lit ": ") s then Some ([], slice_from 2 s)
      else match split_colon s' with
           | Some (k, v) => Some (c :: k, v)
           | None => None
           end
  end.

(** The text before the first space. *)
Fixpoint until_space (s : str) : str :=
  match s with
  | [] => []
  | c :: s' => if N.eqb c 32 then [] else c :: until_space s'
  end.

Definition ScannerError : exn :=
  mkExn "ScannerError" (lit "mapping values are not allowed here").

Definition one_line_yaml : YAML :=
  {| pyobject := value;
     yaml_load := fun stream _ =>
       match split_colon stream with
       | None => Return (Scalar stream)
       | Some (k, v) =>
           if contains (lit ": ") v then Raise ScannerError
           else Return (Mapping k v)
       end;
     format := fun obj =>
       match obj with
       | Scalar s => Return s
       | Mapping k v =>
           Return (lit "{'" ++ k ++ lit "': '" ++ v ++ lit "'}")
       end |}.

(** A YAML library that also knows the tags of Python objects, on two
    documents.  [!!python/name:yaml.FullLoader] names an object of the
    process, the class [yaml.FullLoader], and
    [!!python/object:threading.Thread {}] makes an instance of
    [threading.Thread] without calling [__init__], whose [__repr__] then
    fails on its assertion.  [FullLoader] and [UnsafeLoader] construct
    both; [SafeLoader] has no constructor for such tags and raises;
    [BaseLoader] ignores tags and builds the untagged node, an empty
    scalar or an empty mapping.  Every other document is read as
    [one_line_yaml] reads it.  The messages are shortened to their first
    line. *)
Inductive pyvalue : Type :=
| Plain (v : value)
| Empty_dict
| Named (qualified repr : str)
| Thread_without_init.

Definition thread_document : str :=
  lit "!!python/object:threading.Thread {}".

Definition name_document : str := lit "!!python/name:yaml.FullLoader".

Definition ConstructorError (document : str) : exn :=
  mkExn "ConstructorError"
    (lit "could not determine a constructor for the tag 'tag:yaml.org,2002:"
     ++ slice_from 2 (until_space document) ++ lit "'").

Definition AssertionError : exn :=
  mkExn "AssertionError" (lit "Thread.__init__() was not called").

Definition python_tags : YAML :=
  {| pyobject := pyvalue;
     yaml_load := fun stream l =>
       if str_eqb stream name_document then
         match l with
         | BaseLoader => Return (Plain (Scalar []))
         | SafeLoader => Raise (ConstructorError stream)
         | FullLoader | UnsafeLoader =>
             Return (Named (lit "yaml.FullLoader")
                           (lit "<class 'yaml.loader.FullLoader'>"))
         end
       else if str_eqb stream thread_document then
         match l with
         | BaseLoader => Return Empty_dict
         | SafeLoader => Raise (ConstructorError stream)
         | FullLoader | UnsafeLoader =>
             Return Thread_without_init
         end
       else
         match yaml_load (YAML := one_line_yaml) stream l with
         | Return v => Return (Plain v)
         | Raise e => Raise e
         end;
     format := fun obj =>
       match obj with
       | Plain v => format (YAML := one_line_yaml) v
       | Empty_dict => Return (lit "{}")
       | Named _ repr => Return repr
       | Thread_without_init => Raise AssertionError
       end |}.

Definition ConnectionError : exn :=
  mkExn "ConnectionError" (lit "Max retries exceeded").

(** A network on which one host answers. *)
Definition one_host (url : str) (timeout : Z) : outcome requests_Response :=
  if str_eqb url (lit "https://httpbin.org/get")
  then Return (mkResponse 200 (lit "{}"))
  else Raise ConnectionError.

(** A network on which nothing answers. *)
Definition no_host (url : str) (timeout : Z) : outcome requests_Response :=
  Raise ConnectionError.

(** A world whose entropy source counts: octet [n] is [n mod 256]. *)
Definition counting : World :=
  mkWorld (fun n => byte_of_N (N.of_nat n)) 0 1700000000 one_host.

(** A world whose entropy source is stuck on zero. *)
Definition stuck : World :=
  mkWorld (fun _ => x00) 0 1700000000 one_host.

(** The same as [counting], with the host gone. *)
Definition offline : World :=
  mkWorld (fun n => byte_of_N (N.of_nat n)) 0 1700000000 no_host.

End Sample.

(* ------------------------------------------------------------------ *)
(** * Properties *)
(* ------------------------------------------------------------------ *)

Ltac Zify.zify_post_hook ::= Z.to_euclidean_division_equations.

Lemma byte_of_N_to_N (n : N) (b : byte) :
  (n mod 256 = Byte.to_N b)%N -> byte_of_N n = b.
Proof.
  intros H. unfold byte_of_N. rewrite H, Byte.of_to_N. reflexivity.
Qed.

Lemma to_N_byte_of_N (n : N) : Byte.to_N (byte_of_N n) = (n mod 256)%N.
Proof.
  unfold byte_of_N.
  destruct (Byte.of_N (n mod 256)) as [b|] eqn:E.
  - now apply Byte.to_of_N.
  - apply Byte.of_N_None_iff in E. lia.
Qed.

Lemma firstn_length_app {A} (l r : list A) n :
  n = List.length l -> firstn n (l ++ r) = l.
Proof.
  intros ->. rewrite firstn_app, Nat.sub_diag, firstn_all. cbn. apply app_nil_r.
Qed.

Lemma skipn_length_app {A} (l r : list A) n :
  n = List.length l -> skipn n (l ++ r) = r.
Proof.
  intros ->. rewrite skipn_app, Nat.sub_diag, skipn_all. reflexivity.
Qed.

Lemma app_inj_length {A} (l1 l2 r1 r2 : list A) :
  List.length l1 = List.length l2 -> l1 ++ r1 = l2 ++ r2 -> l1 = l2 /\ r1 = r2.
Proof.
  revert l2. induction l1 as [|a l1 IH]; intros [|b l2] L E;
    try discriminate L.
  - now split.
  - cbn in E. injection E as -> E. injection L as L.
    destruct (IH _ L E) as [-> ->]. now split.
Qed.

Module python_facts.
Lemma bytes_decode_ascii (b : bytes) :
  forallb is_ascii b = true -> bytes_decode b = Return (ascii_text b).
Proof.
  induction b as [|x b IH]; [reflexivity|].
  cbn [forallb]. intros H. apply andb_true_iff in H as [Hx Hb].
  cbn [bytes_decode]. unfold is_ascii in Hx. rewrite Hx, (IH Hb).
  reflexivity.
Qed.

Lemma str_encode_ascii (b : bytes) :
  forallb is_ascii b = true -> str_encode (ascii_text b) = Return b.
Proof.
  induction b as [|x b IH]; [reflexivity|].
  cbn [forallb]. intros H. apply andb_true_iff in H as [Hx Hb].
  cbn [ascii_text map str_encode]. fold (ascii_text b). rewrite (IH Hb).
  unfold is_ascii in Hx. apply N.ltb_lt in Hx.
  replace (is_surrogate (Byte.to_N x)) with false
    by (symmetry; unfold is_surrogate; apply andb_false_iff; left;
        apply N.leb_gt; lia).
  unfold utf8_of_code_point.
  replace (Byte.to_N x <? 128)%N with true by (symmetry; now apply N.ltb_lt).
  change ([?a] ++ ?l) with (a :: l).
  cbn [List.app]. do 2 f_equal. apply byte_of_N_to_N.
  pose proof (Byte.to_N_bounded x). lia.
Qed.

Lemma ascii_text_inj (b c : bytes) : ascii_text b = ascii_text c -> b = c.
Proof.
  revert c. induction b as [|x b IH]; intros [|y c] H; try discriminate H.
  - reflexivity.
  - cbn in H. injection H as Hx H. f_equal; [|now apply IH].
    rewrite <- (byte_of_N_to_N (Byte.to_N x) x), Hx.
    + apply byte_of_N_to_N. pose proof (Byte.to_N_bounded y). lia.
    + pose proof (Byte.to_N_bounded x). lia.
Qed.
End python_facts.

Module struct_facts.
Import Struct.
Local Open Scope N_scope.

Lemma from_big_endian_snoc (b : bytes) (x : byte) :
  from_big_endian (b ++ [x]) = from_big_endian b * 256 + Byte.to_N x.
Proof. unfold from_big_endian. now rewrite fold_left_app. Qed.

Lemma length_big_endian (k : nat) (n : N) : List.length (big_endian k n) = k.
Proof.
  revert n. induction k as [|k IH]; intros n; [reflexivity|].
  cbn [big_endian]. rewrite length_app, IH. cbn. lia.
Qed.

Lemma from_big_endian_big_endian (k : nat) (n : N) :
  from_big_endian (big_endian k n) = n mod 256 ^ N.of_nat k.
Proof.
  revert n. induction k as [|k IH]; intros n.
  - cbn. now rewrite N.mod_1_r.
  - cbn [big_endian]. rewrite from_big_endian_snoc, IH, to_N_byte_of_N.
    rewrite Nat2N.inj_succ, N.pow_succ_r', N.Div0.mod_mul_r. lia.
Qed.

Lemma unpack_pack_Q (n : N) :
  n < 2 ^ 64 ->
  exists b, pack_Q n = Return b /\ List.length b = 8%nat
            /\ unpack_Q b = Return n.
Proof.
  intros H. unfold pack_Q. apply N.ltb_lt in H as H'. rewrite H'.
  eexists. split; [reflexivity|]. split; [apply length_big_endian|].
  unfold unpack_Q. rewrite length_big_endian. cbn [Nat.eqb].
  rewrite from_big_endian_big_endian. f_equal. now apply N.mod_small.
Qed.

Lemma pack_Q_inj (n m : N) (b : bytes) :
  pack_Q n = Return b -> pack_Q m = Return b -> n = m.
Proof.
  intros Hn Hm.
  assert (n < 2 ^ 64) as Ln
    by (unfold pack_Q in Hn; destruct (n <? 2 ^ 64) eqn:E;
        [now apply N.ltb_lt | discriminate]).
  assert (m < 2 ^ 64) as Lm
    by (unfold pack_Q in Hm; destruct (m <? 2 ^ 64) eqn:E;
        [now apply N.ltb_lt | discriminate]).
  destruct (unpack_pack_Q Ln) as (b1 & E1 & _ & U1).
  destruct (unpack_pack_Q Lm) as (b2 & E2 & _ & U2).
  rewrite Hn in E1. rewrite Hm in E2.
  injection E1 as <-. injection E2 as <-. rewrite U1 in U2.
  now injection U2.
Qed.
End struct_facts.

Module base64_facts.
Import base64.
Local Open Scope N_scope.

Lemma to_N_lt (b : byte) : Byte.to_N b < 256.
Proof. pose proof (Byte.to_N_bounded b). lia. Qed.

Lemma index_of_char_of (i : N) : i < 64 -> index_of (char_of i) = Some i.
Proof.
  intros H.
  assert (A : forallb (fun n => match index_of (char_of (N.of_nat n)) with
                                | Some j => N.eqb j (N.of_nat n)
                                | None => false
                                end) (seq 0 64) = true)
    by (vm_compute; reflexivity).
  rewrite forallb_forall in A.
  specialize (A (N.to_nat i)). rewrite N2Nat.id in A.
  destruct (index_of (char_of i)) as [j|].
  - f_equal. apply N.eqb_eq, A, in_seq. lia.
  - discriminate A. apply in_seq. lia.
Qed.

Lemma index_of_pad : index_of pad_char = None.
Proof. reflexivity. Qed.


Lemma decode_quantum (a b c : byte) :
  let n := quantum a b c in
  digits (n / 262144) ((n / 4096) mod 64) ((n / 64) mod 64) (n mod 64) = n.
Proof.
  intros n. unfold digits.
  pose proof (to_N_lt a). pose proof (to_N_lt b). pose proof (to_N_lt c).
  assert (n < 16777216) by (unfold n, quantum; lia).
  clearbody n. clear H H0 H1.
  lia.
Qed.

Lemma list_ind3 {A} (P : list A -> Prop) :
  P [] -> (forall a, P [a]) -> (forall a b, P [a; b]) ->
  (forall a b c l, P l -> P (a :: b :: c :: l)) ->
  forall l, P l.
Proof.
  intros H0 H1 H2 H3. fix IH 1.
  intros [|a [|b [|c l]]];
    [apply H0 | apply H1 | apply H2 | apply H3, IH].
Qed.

Lemma urlsafe_b64decode_cons4 c1 c2 c3 c4 rest :
  urlsafe_b64decode (c1 :: c2 :: c3 :: c4 :: rest) =
  match index_of c1, index_of c2 with
  | Some i1, Some i2 =>
      match index_of c3, index_of c4 with
      | Some i3, Some i4 =>
          let n := digits i1 i2 i3 i4 in
          match urlsafe_b64decode rest with
          | Return bs =>
              Return (byte_of_N (n / 65536) :: byte_of_N (n / 256)
                        :: byte_of_N n :: bs)
          | Raise e => Raise e
          end
      | Some i3, None =>
          match rest with
          | [] =>
              if Byte.eqb c4 pad_char
              then let n := digits i1 i2 i3 0 in
                   Return [byte_of_N (n / 65536); byte_of_N (n / 256)]
              else Raise binascii_Error
          | _ :: _ => Raise binascii_Error
          end
      | None, _ =>
          match rest with
          | [] =>
              if (Byte.eqb c3 pad_char && Byte.eqb c4 pad_char)%bool
              then let n := digits i1 i2 0 0 in
                   Return [byte_of_N (n / 65536)]
              else Raise binascii_Error
          | _ :: _ => Raise binascii_Error
          end
      end
  | _, _ => Raise binascii_Error
  end.
Proof. reflexivity. Qed.

(** Decoding undoes encoding. *)
Lemma urlsafe_b64decode_encode (s : bytes) :
  urlsafe_b64decode (urlsafe_b64encode s) = Return s.
Proof.
  induction s as [|a|a b|a b c l IH] using list_ind3.
  - reflexivity.
  - pose proof (to_N_lt a) as Ha.
    cbn [urlsafe_b64encode]. rewrite urlsafe_b64decode_cons4.
    unfold quantum. change (Byte.to_N x00) with 0.
    rewrite !index_of_char_of by lia. rewrite index_of_pad.
    change (Byte.eqb pad_char pad_char) with true. cbn [andb].
    cbv zeta. unfold digits. f_equal. f_equal.
    apply byte_of_N_to_N. lia.
  - pose proof (to_N_lt a) as Ha. pose proof (to_N_lt b) as Hb.
    cbn [urlsafe_b64encode]. rewrite urlsafe_b64decode_cons4.
    unfold quantum. change (Byte.to_N x00) with 0.
    rewrite !index_of_char_of by lia. rewrite index_of_pad.
    change (Byte.eqb pad_char pad_char) with true.
    cbv zeta. unfold digits. f_equal.
    f_equal; [|f_equal]; apply byte_of_N_to_N; lia.
  - pose proof (to_N_lt a) as Ha. pose proof (to_N_lt b) as Hb.
    pose proof (to_N_lt c) as Hc.
    cbn [urlsafe_b64encode]. rewrite urlsafe_b64decode_cons4.
    unfold quantum.
    rewrite !index_of_char_of by lia. rewrite IH.
    cbv zeta. unfold digits. f_equal.
    f_equal; [|f_equal; [|f_equal]]; apply byte_of_N_to_N; lia.
Qed.

Lemma urlsafe_b64encode_inj (s t : bytes) :
  urlsafe_b64encode s = urlsafe_b64encode t -> s = t.
Proof.
  intros H.
  assert (E : Return s = Return t)
    by (rewrite <- (urlsafe_b64decode_encode s), H;
        apply urlsafe_b64decode_encode).
  now inversion E.
Qed.

Lemma is_ascii_char_of (i : N) : is_ascii (char_of i) = true.
Proof.
  unfold char_of.
  destruct (nth_in_or_default (N.to_nat i) urlsafe_alphabet pad_char)
    as [Hin | ->]; [|reflexivity].
  assert (A : forallb is_ascii urlsafe_alphabet = true) by reflexivity.
  rewrite forallb_forall in A. now apply A.
Qed.

Lemma urlsafe_b64encode_ascii (s : bytes) :
  forallb is_ascii (urlsafe_b64encode s) = true.
Proof.
  induction s as [|a|a b|a b c l IH] using list_ind3;
    cbn [urlsafe_b64encode forallb];
    rewrite ?is_ascii_char_of, ?IH; reflexivity.
Qed.
End base64_facts.


Module padding_facts.
Import padding.

Lemma pad_size_range (data : bytes) :
  let n := block_len - (List.length data mod block_len) in
  1 <= n <= 16 /\ (List.length data + n) mod block_len = 0.
Proof. unfold block_len. cbv zeta. lia. Qed.

Lemma length_pad (data : bytes) : List.length (pad data) mod block_len = 0.
Proof.
  unfold pad. rewrite length_app, repeat_length.
  apply pad_size_range.
Qed.

(** Unpadding undoes padding. *)
Lemma unpad_pad (data : bytes) : unpad (pad data) = Return data.
Proof.
  pose proof (pad_size_range data) as [R M].
  pose proof (length_pad data) as L.
  unfold unpad, pad in *.
  set (n := block_len - List.length data mod block_len) in *.
  set (v := byte_of_N (N.of_nat n)) in *.
  assert (Hv : N.to_nat (Byte.to_N v) = n).
  { unfold v. rewrite to_N_byte_of_N, N.mod_small by lia. apply Nat2N.id. }
  assert (E : rev (data ++ repeat v n) = v :: rev (data ++ repeat v (n - 1))).
  { destruct n as [|n']; [lia|]. cbn [repeat Nat.sub]. rewrite Nat.sub_0_r.
    rewrite repeat_cons, app_assoc, rev_app_distr. reflexivity. }
  rewrite E, Hv, L. cbn [Nat.eqb andb].
  replace (Nat.leb 1 n) with true by (symmetry; apply Nat.leb_le; lia).
  replace (Nat.leb n block_len) with true
    by (symmetry; apply Nat.leb_le; unfold block_len; lia).
  cbn [andb].
  unfold slice_last, slice_but_last.
  rewrite length_app, repeat_length.
  replace (List.length data + n - n) with (List.length data) by lia.
  rewrite skipn_length_app, firstn_length_app by reflexivity.
  replace (forallb (Byte.eqb v) (repeat v n)) with true; [reflexivity|].
  symmetry. apply forallb_forall. intros x Hx.
  apply repeat_spec in Hx. subst x. now apply Byte.byte_dec_lb.
Qed.
End padding_facts.

Module fernet_facts.
Import base64 Struct padding Fernet.
Import base64_facts struct_facts padding_facts python_facts.

Lemma length_next_key_material (w : World) :
  List.length (next_key_material w) = 32.
Proof. unfold next_key_material. now rewrite length_map, length_seq. Qed.

Lemma length_next_iv (w : World) : List.length (next_iv w) = 16.
Proof. unfold next_iv. now rewrite length_map, length_seq. Qed.

(** The key that [generate_key] returns is accepted by the constructor,
    which splits the 32 octets it encodes in two. *)
Lemma new_key_of (w : World) :
  new (key_of w) =
  Return (mk (slice_to 16 (next_key_material w))
             (slice_from 16 (next_key_material w))).
Proof.
  unfold new, key_of. rewrite urlsafe_b64decode_encode.
  now rewrite length_next_key_material.
Qed.

Section WithBackend.
Context {backend : CryptoBackend}.

Lemma encrypt_from_parts_frame (f : t) (data : bytes) (now : N)
    (iv token : bytes) :
  encrypt_from_parts f data now iv = Return token ->
  exists stamp,
    pack_Q now = Return stamp /\ List.length stamp = 8 /\
    token = urlsafe_b64encode
              (frame stamp iv
                 (AES_CBC_encrypt (encryption_key f) iv (pad data))
                 (HMAC_SHA256 (signing_key f)
                    (x80 :: stamp ++ iv
                       ++ AES_CBC_encrypt (encryption_key f) iv
                            (pad data)))).
Proof.
  unfold encrypt_from_parts. intros H.
  destruct (pack_Q now) as [stamp|e] eqn:E; [|discriminate H].
  exists stamp. split; [reflexivity|]. split.
  - unfold pack_Q in E. destruct (now <? 2 ^ 64)%N; [|discriminate E].
    assert (stamp = big_endian 8 now) as -> by congruence.
    apply length_big_endian.
  - injection H as <-. f_equal. unfold frame. cbn [List.app]. f_equal.
    now rewrite <- !app_assoc.
Qed.

Lemma encrypt_from_parts_returns (f : t) (data : bytes) (now : N)
    (iv : bytes) :
  (now < 2 ^ 64)%N ->
  exists token, encrypt_from_parts f data now iv = Return token.
Proof.
  intros H. unfold encrypt_from_parts.
  destruct (unpack_pack_Q H) as (stamp & -> & _). eauto.
Qed.

(** Two tokens are the same only if they were made with the same IV at
    the same second. *)
Lemma encrypt_from_parts_inj (f f' : t) (data data' : bytes)
    (now now' : N) (iv iv' token : bytes) :
  List.length iv = 16 -> List.length iv' = 16 ->
  encrypt_from_parts f data now iv = Return token ->
  encrypt_from_parts f' data' now' iv' = Return token ->
  iv = iv' /\ now = now'.
Proof.
  intros L L' H H'.
  apply encrypt_from_parts_frame in H as (stamp & P & S & ->).
  apply encrypt_from_parts_frame in H' as (stamp' & P' & S' & E).
  apply urlsafe_b64encode_inj in E. unfold frame in E.
  injection E as E.
  apply app_inj_length in E as [<- E]; [|congruence].
  apply app_inj_length in E as [<- _]; [|congruence].
  split; [reflexivity|]. eapply pack_Q_inj; eassumption.
Qed.

Lemma slices_of_frame (stamp iv ciphertext tag : bytes) :
  List.length stamp = 8 -> List.length iv = 16 -> List.length tag = 32 ->
  let data := frame stamp iv ciphertext tag in
  slice_to 8 (slice_from 1 data) = stamp /\
  slice_but_last 32 data = x80 :: stamp ++ iv ++ ciphertext /\
  slice_last 32 data = tag /\
  slice_to 16 (slice_from 9 data) = iv /\
  slice_but_last 32 (slice_from 25 data) = ciphertext.
Proof.
  intros Ls Li Lt data. unfold data, frame, slice_to, slice_from,
    slice_last, slice_but_last.
  repeat split.
  - cbn [skipn]. now apply firstn_length_app.
  - replace (x80 :: stamp ++ iv ++ ciphertext ++ tag)
      with ((x80 :: stamp ++ iv ++ ciphertext) ++ tag).
    2:{ cbn [List.app]. now rewrite <- !app_assoc. }
    apply firstn_length_app. rewrite length_app. lia.
  - replace (x80 :: stamp ++ iv ++ ciphertext ++ tag)
      with ((x80 :: stamp ++ iv ++ ciphertext) ++ tag)
      by (cbn [List.app]; now rewrite <- !app_assoc).
    apply skipn_length_app. rewrite length_app. lia.
  - change 9 with (S 8). rewrite skipn_cons.
    rewrite skipn_length_app by (now symmetry).
    now apply firstn_length_app.
  - change 25 with (S 24). rewrite skipn_cons.
    rewrite app_assoc.
    rewrite skipn_length_app by (rewrite length_app; lia).
    apply firstn_length_app. rewrite length_app. lia.
Qed.

(** Decrypting a token with the instance that made it gives the
    plaintext back. *)
Lemma decrypt_encrypt_from_parts (f : t) (data : bytes) (now : N)
    (iv token : bytes) :
  LawfulBackend backend ->
  List.length (encryption_key f) = 16 -> List.length iv = 16 ->
  encrypt_from_parts f data now iv = Return token ->
  decrypt f token = Return data.
Proof.
  intros Law Lk Li H.
  apply encrypt_from_parts_frame in H as (stamp & P & Ls & ->).
  unfold decrypt. rewrite urlsafe_b64decode_encode.
  set (ciphertext := AES_CBC_encrypt (encryption_key f) iv (pad data)).
  set (tag := HMAC_SHA256 (signing_key f)
                (x80 :: stamp ++ iv ++ ciphertext)).
  destruct (slices_of_frame stamp iv ciphertext tag Ls Li
              (length_hmac _ _)) as (E1 & E2 & E3 & E4 & E5).
  set (whole := frame stamp iv ciphertext tag) in *.
  assert (Hd : whole = x80 :: stamp ++ iv ++ ciphertext ++ tag)
    by reflexivity.
  rewrite Hd at 1. rewrite E1, E2, E3, E4, E5.
  unfold unpack_Q. rewrite Ls. cbn [Nat.eqb].
  fold tag.
  destruct (list_eq_dec byte_eq_dec tag tag) as [_|N];
    [|now contradiction N].
  assert (Lc : List.length ciphertext = List.length (pad data))
    by (apply length_encrypt; auto using length_pad).
  rewrite Lc, length_pad. cbn [Nat.eqb].
  unfold ciphertext.
  rewrite decrypt_encrypt by auto using length_pad.
  now rewrite unpad_pad.
Qed.

End WithBackend.
End fernet_facts.


Module aes_facts.
Import AES.

Lemma lift1_of_bits (f : bits -> bits) (x : bits) :
  lift1 f (Byte.of_bits x) = Byte.of_bits (f x).
Proof. unfold lift1. now rewrite Byte.to_bits_of_bits. Qed.

Lemma lift2_of_bits (f : bits -> bits -> bits) (x y : bits) :
  lift2 f (Byte.of_bits x) (Byte.of_bits y) = Byte.of_bits (f x y).
Proof. unfold lift2. now rewrite !Byte.to_bits_of_bits. Qed.

(** Every octet is the octet of its bits: a goal on octets becomes a goal
    on booleans. *)
Ltac to_bits a :=
  rewrite <- (Byte.of_bits_to_bits a);
  generalize (Byte.to_bits a); clear a;
  intros (?a0, (?a1, (?a2, (?a3, (?a4, (?a5, (?a6, ?a7))))))).

Ltac push_bits :=
  unfold mul2, mul3, mul9, mul11, mul13, mul14, xor, xtime;
  repeat (rewrite lift1_of_bits || rewrite lift2_of_bits);
  cbv [xor_bits xtime_bits].

Lemma xor_cancel (a b : byte) : xor (xor a b) b = a.
Proof.
  to_bits a. to_bits b. push_bits. f_equal. repeat f_equal; btauto.
Qed.

Lemma inv_mix_column_mix_column (c : column) :
  inv_mix_column (mix_column c) = c.
Proof.
  destruct c as [[[a b] c] d]. unfold inv_mix_column, mix_column.
  to_bits a. to_bits b. to_bits c. to_bits d. push_bits.
  repeat f_equal; btauto.
Qed.

Lemma inv_sbox_sbox (a : byte) : inv_sbox (sbox a) = a.
Proof. destruct a; reflexivity. Qed.

Lemma inv_sub_bytes_sub_bytes (s : state) : inv_sub_bytes (sub_bytes s) = s.
Proof.
  destruct s as [[[[[[a0 a1] a2] a3] [[[b0 b1] b2] b3]]
                  [[[c0 c1] c2] c3]] [[[d0 d1] d2] d3]].
  unfold inv_sub_bytes, sub_bytes, map_state, map_column.
  now rewrite !inv_sbox_sbox.
Qed.

Lemma inv_shift_rows_shift_rows (s : state) :
  inv_shift_rows (shift_rows s) = s.
Proof.
  destruct s as [[[[[[a0 a1] a2] a3] [[[b0 b1] b2] b3]]
                  [[[c0 c1] c2] c3]] [[[d0 d1] d2] d3]].
  reflexivity.
Qed.

Lemma inv_mix_columns_mix_columns (s : state) :
  inv_mix_columns (mix_columns s) = s.
Proof.
  destruct s as [[[c0 c1] c2] c3].
  unfold inv_mix_columns, mix_columns, map_state.
  now rewrite !inv_mix_column_mix_column.
Qed.

Lemma add_round_key_twice (k s : state) :
  add_round_key k (add_round_key k s) = s.
Proof.
  destruct s as [[[[[[a0 a1] a2] a3] [[[b0 b1] b2] b3]]
                  [[[c0 c1] c2] c3]] [[[d0 d1] d2] d3]].
  destruct k as [[[[[[k0 k1] k2] k3] [[[l0 l1] l2] l3]]
                  [[[m0 m1] m2] m3]] [[[n0 n1] n2] n3]].
  unfold add_round_key, xor_column. now rewrite !xor_cancel.
Qed.

Lemma inv_rounds_rounds (ks : list state) (s : state) :
  inv_rounds ks (rounds ks s) = s.
Proof.
  revert s. induction ks as [|k ks IH]; intros s; [reflexivity|].
  destruct ks as [|k' ks'].
  - cbn [rounds inv_rounds].
    now rewrite add_round_key_twice, inv_shift_rows_shift_rows,
      inv_sub_bytes_sub_bytes.
  - change (inv_rounds (k :: k' :: ks') (rounds (k :: k' :: ks') s))
      with (inv_sub_bytes (inv_shift_rows (inv_mix_columns
              (add_round_key k
                 (inv_rounds (k' :: ks')
                    (rounds (k' :: ks')
                       (add_round_key k
                          (mix_columns (shift_rows (sub_bytes s)))))))))).
    now rewrite IH, add_round_key_twice, inv_mix_columns_mix_columns,
      inv_shift_rows_shift_rows, inv_sub_bytes_sub_bytes.
Qed.

Lemma inv_cipher_cipher (ks : list state) (s : state) :
  inv_cipher ks (cipher ks s) = s.
Proof.
  destruct ks as [|k ks]; [reflexivity|]. cbn [cipher inv_cipher].
  now rewrite inv_rounds_rounds, add_round_key_twice.
Qed.

Lemma state_of_block_of_state (s : state) :
  state_of_block (block_of_state s) = s.
Proof.
  destruct s as [[[[[[a0 a1] a2] a3] [[[b0 b1] b2] b3]]
                  [[[c0 c1] c2] c3]] [[[d0 d1] d2] d3]].
  reflexivity.
Qed.

Lemma block_of_state_of_block (b : bytes) :
  List.length b = 16 -> block_of_state (state_of_block b) = b.
Proof.
  intros L.
  do 16 (destruct b as [|? b]; [discriminate L|]).
  destruct b; [reflexivity|discriminate L].
Qed.

Lemma length_block_of_state (s : state) : List.length (block_of_state s) = 16.
Proof.
  destruct s as [[[[[[a0 a1] a2] a3] [[[b0 b1] b2] b3]]
                  [[[c0 c1] c2] c3]] [[[d0 d1] d2] d3]].
  reflexivity.
Qed.

Lemma length_encrypt_block (key block : bytes) :
  List.length (encrypt_block key block) = 16.
Proof. apply length_block_of_state. Qed.

(** The inverse cipher undoes the cipher. *)
Lemma decrypt_block_encrypt_block (key block : bytes) :
  List.length block = 16 ->
  decrypt_block key (encrypt_block key block) = block.
Proof.
  intros L. unfold decrypt_block, encrypt_block.
  now rewrite state_of_block_of_state, inv_cipher_cipher,
    block_of_state_of_block.
Qed.

End aes_facts.

Module cbc_facts.
Import CBC aes_facts.

Lemma length_xor_bytes (a b : bytes) :
  List.length (xor_bytes a b) = Nat.min (List.length a) (List.length b).
Proof. unfold xor_bytes. now rewrite length_map, length_combine. Qed.

Lemma xor_bytes_cancel (a b : bytes) :
  List.length a = List.length b -> xor_bytes (xor_bytes a b) b = a.
Proof.
  revert b. induction a as [|x a IH]; intros [|y b] L; try discriminate L.
  - reflexivity.
  - injection L as L. unfold xor_bytes in *. cbn [combine map fst snd].
    now rewrite xor_cancel, IH.
Qed.

Lemma length_encrypt_blocks (n : nat) (key prev data : bytes) :
  List.length (encrypt_blocks n key prev data) = 16 * n.
Proof.
  revert prev data. induction n as [|n IH]; intros prev data; [reflexivity|].
  cbn [encrypt_blocks]. rewrite length_app, length_encrypt_block, IH. lia.
Qed.

Lemma decrypt_blocks_encrypt_blocks (n : nat) (key prev data : bytes) :
  List.length prev = 16 -> List.length data = 16 * n ->
  decrypt_blocks n key prev (encrypt_blocks n key prev data) = data.
Proof.
  revert prev data. induction n as [|n IH]; intros prev data Lp Ld.
  - destruct data; [reflexivity|discriminate Ld].
  - cbn [encrypt_blocks decrypt_blocks].
    set (c := AES.encrypt_block key (xor_bytes (firstn 16 data) prev)).
    assert (Lc : List.length c = 16) by apply length_encrypt_block.
    assert (Lf : List.length (firstn 16 data) = 16)
      by (rewrite length_firstn; lia).
    rewrite (firstn_length_app c _ (eq_sym Lc)).
    rewrite (skipn_length_app c _ (eq_sym Lc)).
    unfold c at 1.
    rewrite decrypt_block_encrypt_block
      by (rewrite length_xor_bytes; lia).
    rewrite xor_bytes_cancel by lia.
    rewrite IH by (try rewrite length_skipn; lia).
    apply firstn_skipn.
Qed.

(** AES-128-CBC as the application uses it is lawful. *)
Lemma openssl_lawful : LawfulBackend openssl.
Proof.
  split.
  - intros key iv data _ Li Ld. cbn [AES_CBC_decrypt AES_CBC_encrypt openssl].
    unfold CBC.decrypt, CBC.encrypt.
    rewrite length_encrypt_blocks.
    replace (16 * (List.length data / 16) / 16) with (List.length data / 16)
      by lia.
    apply decrypt_blocks_encrypt_blocks; lia.
  - intros key iv data _ _ Ld. cbn [AES_CBC_encrypt openssl].
    unfold CBC.encrypt. rewrite length_encrypt_blocks. lia.
  - intros key data. cbn [HMAC_SHA256 openssl]. unfold HMAC.sha256.
    generalize (map (HMAC.xor_byte x5c)
      ((if (64 <? List.length key)%nat then SHA256.digest key else key)
       ++ repeat x00
            (64 - List.length
               (if (64 <? List.length key)%nat
                then SHA256.digest key else key)))
      ++ SHA256.digest
           (map (HMAC.xor_byte x36)
              ((if (64 <? List.length key)%nat then SHA256.digest key
                else key)
               ++ repeat x00
                    (64 - List.length
                       (if (64 <? List.length key)%nat
                        then SHA256.digest key else key))) ++ data)).
    intros m. unfold SHA256.digest.
    destruct (SHA256.blocks _ _ _) as [[[[[[[a b] c] d] e] f] g] h].
    now rewrite !length_app, !struct_facts.length_big_endian.
Qed.

End cbc_facts.

(** Known answers: the digest of ["abc"] (FIPS 180-4), the first test case
    of RFC 4231, the example vector of FIPS 197 (appendix C.1), and the
    token of the Fernet specification (key, time, IV and message of its
    [generate.json]). *)
Example sha256_abc :
  hex (SHA256.digest (list_byte_of_string "abc"))
  = "ba7816bf8f01cfea414140de5dae2223b00361a396177a9cb410ff61f20015ad"%string.
Proof. vm_compute. reflexivity. Qed.

Example hmac_sha256_hi_there :
  hex (HMAC.sha256 (repeat x0b 20) (list_byte_of_string "Hi There"))
  = "b0344c61d8db38535ca8afceaf0bf12b881dc200c9833da726e9376c2e32cff7"%string.
Proof. vm_compute. reflexivity. Qed.

Example aes128_fips197 :
  hex (AES.encrypt_block
         [x00; x01; x02; x03; x04; x05; x06; x07;
          x08; x09; x0a; x0b; x0c; x0d; x0e; x0f]
         [x00; x11; x22; x33; x44; x55; x66; x77;
          x88; x99; xaa; xbb; xcc; xdd; xee; xff])
  = "69c4e0d86a7b0430d8cdb78070b4c55a"%string.
Proof. vm_compute. reflexivity. Qed.

Example fernet_specification_token :
  match Fernet.new (list_byte_of_string
                      "cw_0x689RpI-jtRR7oE8h_eQsKImvJapLeSbXpwF4e4=") with
  | Return f =>
      Fernet.encrypt_from_parts (backend := openssl) f
        (list_byte_of_string "hello") 499162800
        [x00; x01; x02; x03; x04; x05; x06; x07;
         x08; x09; x0a; x0b; x0c; x0d; x0e; x0f]
  | Raise e => Raise e
  end
  = Return (list_byte_of_string
      "gAAAAAAdwJ6wAAECAwQFBgcICQoLDA0ODy021cpGVWKZ_eEwCGM4BLLF_5CV9dOPmrhuVUPgJobwOz7JcbmrR64jVmpU4IwqDA==").
Proof. vm_compute. reflexivity. Qed.

Module utf8_facts.
Local Open Scope N_scope.

Lemma bytes_decode_1 (b0 : byte) (rest : bytes) :
  Byte.to_N b0 < 128 ->
  bytes_decode (b0 :: rest) = cons_decoded (Byte.to_N b0) (bytes_decode rest).
Proof.
  intros H. cbn [bytes_decode]. apply N.ltb_lt in H. now rewrite H.
Qed.

Lemma bytes_decode_2 (b0 b1 : byte) (rest : bytes) :
  194 <= Byte.to_N b0 <= 223 -> 128 <= Byte.to_N b1 <= 191 ->
  bytes_decode (b0 :: b1 :: rest)
  = cons_decoded ((Byte.to_N b0 - 192) * 64 + Byte.to_N b1 mod 64)
         (bytes_decode rest).
Proof.
  intros H0 H1. cbn [bytes_decode]. unfold in_range, is_continuation.
  generalize dependent (Byte.to_N b0). generalize dependent (Byte.to_N b1).
  intros n1 H1 n0 H0.
  destruct (N.ltb_spec n0 128); [lia|].
  destruct (N.leb_spec 194 n0); [|lia].
  destruct (N.leb_spec n0 223); [|lia].
  destruct (N.leb_spec 128 n1); [|lia].
  destruct (N.leb_spec n1 191); [|lia].
  reflexivity.
Qed.

Lemma bytes_decode_3 (b0 b1 b2 : byte) (rest : bytes) :
  224 <= Byte.to_N b0 <= 239 -> 128 <= Byte.to_N b1 <= 191 ->
  128 <= Byte.to_N b2 <= 191 ->
  (Byte.to_N b0 = 224 -> 160 <= Byte.to_N b1) ->
  (Byte.to_N b0 = 237 -> Byte.to_N b1 <= 159) ->
  bytes_decode (b0 :: b1 :: b2 :: rest)
  = cons_decoded ((Byte.to_N b0 - 224) * 4096 + Byte.to_N b1 mod 64 * 64
          + Byte.to_N b2 mod 64)
         (bytes_decode rest).
Proof.
  intros H0 H1 H2 L U. cbn [bytes_decode]. unfold in_range, is_continuation.
  generalize dependent (Byte.to_N b0). generalize dependent (Byte.to_N b1).
  generalize dependent (Byte.to_N b2).
  intros n2 H2 n1 H1 n0 H0 L U.
  destruct (N.ltb_spec n0 128); [lia|].
  destruct (N.leb_spec 194 n0); [|lia].
  destruct (N.leb_spec n0 223); [lia|]. cbn [andb].
  destruct (N.leb_spec 224 n0); [|lia].
  destruct (N.leb_spec n0 239); [|lia]. cbn [andb].
  destruct (N.leb_spec 128 n1); [|lia].
  destruct (N.leb_spec n1 191); [|lia].
  destruct (N.leb_spec 128 n2); [|lia].
  destruct (N.leb_spec n2 191); [|lia]. cbn [andb].
  destruct (N.eqb_spec n0 224), (N.eqb_spec n0 237);
    destruct (N.leb_spec 160 n1), (N.leb_spec n1 159);
    cbn [negb orb andb]; try lia; reflexivity.
Qed.

Lemma bytes_decode_4 (b0 b1 b2 b3 : byte) (rest : bytes) :
  240 <= Byte.to_N b0 <= 244 -> 128 <= Byte.to_N b1 <= 191 ->
  128 <= Byte.to_N b2 <= 191 -> 128 <= Byte.to_N b3 <= 191 ->
  (Byte.to_N b0 = 240 -> 144 <= Byte.to_N b1) ->
  (Byte.to_N b0 = 244 -> Byte.to_N b1 <= 143) ->
  bytes_decode (b0 :: b1 :: b2 :: b3 :: rest)
  = cons_decoded ((Byte.to_N b0 - 240) * 262144 + Byte.to_N b1 mod 64 * 4096
          + Byte.to_N b2 mod 64 * 64 + Byte.to_N b3 mod 64)
         (bytes_decode rest).
Proof.
  intros H0 H1 H2 H3 L U. cbn [bytes_decode].
  unfold in_range, is_continuation.
  generalize dependent (Byte.to_N b0). generalize dependent (Byte.to_N b1).
  generalize dependent (Byte.to_N b2). generalize dependent (Byte.to_N b3).
  intros n3 H3 n2 H2 n1 H1 n0 H0 L U.
  destruct (N.ltb_spec n0 128); [lia|].
  destruct (N.leb_spec 194 n0); [|lia].
  destruct (N.leb_spec n0 223); [lia|]. cbn [andb].
  destruct (N.leb_spec 224 n0); [|lia].
  destruct (N.leb_spec n0 239); [lia|]. cbn [andb].
  destruct (N.leb_spec 240 n0); [|lia].
  destruct (N.leb_spec n0 244); [|lia]. cbn [andb].
  destruct (N.leb_spec 128 n1); [|lia].
  destruct (N.leb_spec n1 191); [|lia].
  destruct (N.leb_spec 128 n2); [|lia].
  destruct (N.leb_spec n2 191); [|lia].
  destruct (N.leb_spec 128 n3); [|lia].
  destruct (N.leb_spec n3 191); [|lia]. cbn [andb].
  destruct (N.eqb_spec n0 240), (N.eqb_spec n0 244);
    destruct (N.leb_spec 144 n1), (N.leb_spec n1 143);
    cbn [negb orb andb]; try lia; reflexivity.
Qed.

(** Decoding reads back the code point that was encoded. *)
Lemma bytes_decode_code_point (c : N) (rest : bytes) :
  scalar c = true ->
  bytes_decode (utf8_of_code_point c ++ rest) = cons_decoded c (bytes_decode rest).
Proof.
  unfold scalar, is_surrogate. intros H.
  apply andb_true_iff in H as [H1 H2]. apply N.ltb_lt in H1.
  apply negb_true_iff, andb_false_iff in H2.
  assert (S : c < 55296 \/ 57343 < c)
    by (destruct H2 as [H2|H2]; apply N.leb_gt in H2; lia).
  clear H2. unfold utf8_of_code_point.
  destruct (N.ltb_spec c 128) as [A|A];
    [|destruct (N.ltb_spec c 2048) as [B|B];
      [|destruct (N.ltb_spec c 65536) as [C|C]]];
    cbn [List.app].
  - rewrite bytes_decode_1; rewrite to_N_byte_of_N, N.mod_small by lia;
      [reflexivity|lia].
  - rewrite bytes_decode_2;
      rewrite ?to_N_byte_of_N, ?(N.mod_small (_ + _) 256) by lia;
      [f_equal|..]; lia.
  - rewrite bytes_decode_3;
      rewrite ?to_N_byte_of_N, ?(N.mod_small (_ + _) 256) by lia;
      [f_equal|..]; lia.
  - rewrite bytes_decode_4;
      rewrite ?to_N_byte_of_N, ?(N.mod_small (_ + _) 256) by lia;
      [f_equal|..]; lia.
Qed.

Lemma str_encode_scalar (s : str) :
  forallb scalar s = true -> exists b, str_encode s = Return b.
Proof.
  induction s as [|c s IH]; [now exists []|].
  cbn [forallb]. intros H. apply andb_true_iff in H as [Hc Hs].
  destruct (IH Hs) as [b E]. cbn [str_encode]. rewrite E.
  unfold scalar in Hc. apply andb_true_iff in Hc as [_ Hc].
  apply negb_true_iff in Hc. rewrite Hc. eauto.
Qed.

(** Decoding undoes encoding. *)
Lemma bytes_decode_str_encode (s : str) (b : bytes) :
  forallb scalar s = true -> str_encode s = Return b ->
  bytes_decode b = Return s.
Proof.
  revert b. induction s as [|c s IH]; intros b H E.
  - injection E as <-. reflexivity.
  - cbn [forallb] in H. apply andb_true_iff in H as [Hc Hs].
    cbn [str_encode] in E.
    destruct (is_surrogate c); [discriminate E|].
    destruct (str_encode s) as [b'|e]; [|discriminate E].
    injection E as <-. rewrite bytes_decode_code_point by assumption.
    now rewrite (IH b' Hs eq_refl).
Qed.

End utf8_facts.
Module more_facts.
Import base64 base64_facts fernet_facts struct_facts python_facts utf8_facts.

Lemma str_eqb_eq (s t : str) : str_eqb s t = true <-> s = t.
Proof.
  revert t. induction s as [|c s IH]; intros [|d t]; cbn [str_eqb];
    try (split; [discriminate|discriminate]); [now split|].
  rewrite andb_true_iff, N.eqb_eq, IH. split.
  - now intros [-> ->].
  - intros E. injection E as -> ->. now split.
Qed.


(** The first value of a key is the one the handlers read. *)
Lemma args_get_first (a1 a2 : list (str * str)) (k v d : str) :
  forallb (fun kv => negb (str_eqb (fst kv) k)) a1 = true ->
  args_get (a1 ++ (k, v) :: a2) k d = v.
Proof.
  induction a1 as [|[k' v'] a1 IH]; cbn [forallb List.app args_get fst].
  - intros _. now rewrite (proj2 (str_eqb_eq k k) eq_refl).
  - intros H. apply andb_true_iff in H as [H1 H2].
    apply negb_true_iff in H1. rewrite H1. now apply IH.
Qed.

Lemma args_get_absent (a : list (str * str)) (k d : str) :
  forallb (fun kv => negb (str_eqb (fst kv) k)) a = true ->
  args_get a k d = d.
Proof.
  induction a as [|[k' v'] a IH]; cbn [forallb args_get fst]; [reflexivity|].
  intros H. apply andb_true_iff in H as [H1 H2].
  apply negb_true_iff in H1. rewrite H1. now apply IH.
Qed.

Lemma length_urlsafe_b64encode (s : bytes) :
  List.length (urlsafe_b64encode s) = 4 * ((List.length s + 2) / 3).
Proof.
  induction s as [|a|a b|a b c l IH] using list_ind3;
    try reflexivity.
  cbn [urlsafe_b64encode List.length]. rewrite IH. lia.
Qed.

Lemma url_safe_char_of (i : N) : url_safe (Byte.to_N (char_of i)) = true.
Proof.
  unfold char_of.
  destruct (nth_in_or_default (N.to_nat i) urlsafe_alphabet pad_char)
    as [Hin | ->]; [|reflexivity].
  assert (A : forallb (fun b => url_safe (Byte.to_N b)) urlsafe_alphabet
              = true) by reflexivity.
  rewrite forallb_forall in A. now apply A.
Qed.

Lemma url_safe_urlsafe_b64encode (s : bytes) :
  forallb url_safe (ascii_text (urlsafe_b64encode s)) = true.
Proof.
  induction s as [|a|a b|a b c l IH] using list_ind3;
    cbn [urlsafe_b64encode ascii_text map forallb];
    rewrite ?url_safe_char_of; try reflexivity.
  exact IH.
Qed.

Lemma unpack_Q_pack_Q (n : N) (b : bytes) :
  Struct.pack_Q n = Return b -> Struct.unpack_Q b = Return n.
Proof.
  intros H.
  assert (L : (n < 2 ^ 64)%N)
    by (unfold Struct.pack_Q in H; destruct (n <? 2 ^ 64)%N eqn:E;
        [now apply N.ltb_lt | discriminate]).
  destruct (unpack_pack_Q L) as (b' & E & _ & U).
  rewrite H in E. now injection E as <-.
Qed.

(** The head of a token's octets: version, timestamp, IV. *)
Lemma header_of_frame (stamp iv ciphertext tag : bytes) :
  List.length stamp = 8 -> List.length iv = 16 ->
  let data := Fernet.frame stamp iv ciphertext tag in
  slice_to 1 data = [x80]
  /\ slice_to 8 (slice_from 1 data) = stamp
  /\ slice_to 16 (slice_from 9 data) = iv.
Proof.
  intros Ls Li data. unfold data, Fernet.frame, slice_to, slice_from.
  split; [reflexivity|]. split.
  - cbn [skipn]. now apply firstn_length_app.
  - change 9 with (S 8). rewrite skipn_cons.
    rewrite skipn_length_app by (now symmetry).
    now apply firstn_length_app.
Qed.


End more_facts.

(** The text of a key inside the text of a token: base64 text is read as
    a number, and a key of 32 octets ends with one [=], which can only sit
    on the padding that ends the token. *)
Module key_facts.
Import base64 Struct base64_facts struct_facts.
Local Open Scope N_scope.


















End key_facts.

(* ------------------------------------------------------------------ *)
(** ** The handlers *)
(* ------------------------------------------------------------------ *)

Section HandlerFacts.
Context {jinja : TemplateEngine} {pyyaml : YAML} {backend : CryptoBackend}.
Import fernet_facts base64_facts python_facts.

(** What [encrypt_test] does, step by step: 32 octets are drawn for the
    key; if the message cannot be encoded the handler raises there;
    otherwise 16 more octets are drawn for the IV and the token is
    returned as text behind the prefix. *)
Lemma encrypt_test_steps (request : Request) (w : World) :
  encrypt_test request w =
  match str_encode (message_of request) with
  | Raise e => (Raise e, advance 32 w)
  | Return plaintext =>
      match token_of w plaintext with
      | Raise e => (Raise e, advance 48 w)
      | Return token =>
          (Return (lit "Encrypted: " ++ ascii_text token), advance 48 w)
      end
  end.
Proof.
  unfold encrypt_test, bind at 1, Fernet.generate_key, bind at 1.
  unfold os_urandom at 1, ret at 1.
  fold (next_key_material w). fold (key_of w).
  unfold bind at 1, lift at 1. rewrite new_key_of.
  unfold bind at 1, lift at 1. fold (message_of request).
  destruct (str_encode (message_of request)) as [plaintext|e];
    [|reflexivity].
  unfold bind at 1, Fernet.encrypt, bind at 1, time_time.
  unfold Fernet.encrypt_at_time, bind at 1, os_urandom, lift at 1.
  cbn [entropy drawn clock network].
  fold (next_iv w). fold (token_of w plaintext).
  replace (drawn w + 32 + 16) with (drawn w + 48) by lia.
  fold (advance 48 w).
  destruct (token_of w plaintext) as [token|e] eqn:E; [|reflexivity].
  unfold bind, lift, ret.
  apply encrypt_from_parts_frame in E as (stamp & _ & _ & ->).
  now rewrite bytes_decode_ascii by apply urlsafe_b64encode_ascii.
Qed.

Lemma token_of_returns (w : World) (plaintext : bytes) :
  (clock w < 2 ^ 64)%N -> exists token, token_of w plaintext = Return token.
Proof. apply encrypt_from_parts_returns. Qed.

(** The text behind the prefix determines the token. *)
Lemma encrypted_body_inj (t1 t2 : bytes) :
  lit "Encrypted: " ++ ascii_text t1 = lit "Encrypted: " ++ ascii_text t2 ->
  t1 = t2.
Proof. intros H. apply app_inv_head in H. now apply ascii_text_inj. Qed.

(** Two calls that draw different IVs, or run at different seconds,
    return different bodies. *)
Lemma encrypt_test_distinct (request : Request) (w w' : World)
    (body body' : str) :
  next_iv w <> next_iv w' \/ clock w <> clock w' ->
  fst (encrypt_test request w) = Return body ->
  fst (encrypt_test request w') = Return body' ->
  body <> body'.
Proof.
  intros D H H' ->. rewrite encrypt_test_steps in H, H'.
  destruct (str_encode (message_of request)) as [plaintext|e];
    [|discriminate H].
  destruct (token_of w plaintext) as [token|e] eqn:E; [|discriminate H].
  destruct (token_of w' plaintext) as [token'|e] eqn:E'; [|discriminate H'].
  cbn [fst] in H, H'. injection H as H. injection H' as H'.
  rewrite <- H in H'. apply encrypted_body_inj in H'. subst token'.
  unfold token_of in E, E'.
  assert (next_iv w = next_iv w' /\ clock w = clock w') as [Ei Ec]
    by (eapply encrypt_from_parts_inj;
        [apply length_next_iv | apply length_next_iv | exact E | exact E']).
  destruct D as [D|D]; contradiction.
Qed.


Lemma yaml_test_steps (request : Request) (w : World) :
  yaml_test request w =
  (match yaml_load (data_of request) FullLoader with
   | Raise e => Return (lit "Error: " ++ exn_str e)
   | Return parsed =>
       match format parsed with
       | Raise e => Return (lit "Error: " ++ exn_str e)
       | Return shown => Return (lit "Parsed YAML: " ++ shown)
       end
   end, w).
Proof.
  unfold yaml_test, try_except, bind, lift, ret. fold (data_of request).
  destruct (yaml_load (data_of request) FullLoader) as [parsed|e];
    [|reflexivity].
  now destruct (format parsed).
Qed.

Lemma fetch_url_steps (request : Request) (w : World) :
  fetch_url request w =
  (match network w (url_of request) 5 with
   | Raise e => Return (lit "Error: " ++ exn_str e)
   | Return response =>
       Return (lit "Status: " ++ str_of_int (status_code response)
               ++ lit "<br>Content: " ++ slice_to 200 (text response))
   end, w).
Proof.
  unfold fetch_url, try_except, bind, requests_get, ret.
  fold (url_of request).
  now destruct (network w (url_of request) 5).
Qed.

End HandlerFacts.

(* ------------------------------------------------------------------ *)
(** ** The claims of the specification *)
(* ------------------------------------------------------------------ *)

Section Routes.
Context {jinja : TemplateEngine} {pyyaml : YAML} {backend : CryptoBackend}.

Lemma app_template (a : list (str * str)) (w : World) :
  app (GET "/template" a) w =
  (make_response
     (render_template_string (template_of (GET "/template" a))),
   w).
Proof. reflexivity. Qed.

Lemma app_yaml (a : list (str * str)) (w : World) :
  app (GET "/yaml" a) w =
  (make_response (fst (yaml_test (GET "/yaml" a) w)), w).
Proof.
  unfold app, GET. cbn [path].
  change (match_rule url_map (lit "/yaml")) with (Some ep_yaml).
  cbn [view_function]. now rewrite yaml_test_steps.
Qed.

Lemma app_fetch (a : list (str * str)) (w : World) :
  app (GET "/fetch" a) w =
  (make_response (fst (fetch_url (GET "/fetch" a) w)), w).
Proof.
  unfold app, GET. cbn [path].
  change (match_rule url_map (lit "/fetch")) with (Some ep_fetch).
  cbn [view_function]. now rewrite fetch_url_steps.
Qed.

Lemma app_encrypt (a : list (str * str)) (w : World) :
  app (GET "/encrypt" a) w =
  (make_response (fst (encrypt_test (GET "/encrypt" a) w)),
   snd (encrypt_test (GET "/encrypt" a) w)).
Proof.
  unfold app, GET. cbn [path].
  change (match_rule url_map (lit "/encrypt")) with (Some ep_encrypt).
  cbn [view_function].
  now destruct (encrypt_test (mkRequest (lit "/encrypt") a) w).
Qed.

Lemma status_yaml (a : list (str * str)) (w : World) :
  status (fst (app (GET "/yaml" a) w)) = 200%Z.
Proof.
  rewrite app_yaml, yaml_test_steps. cbn [fst].
  destruct (yaml_load _ _) as [parsed|e]; [|reflexivity].
  now destruct (format parsed).
Qed.

Lemma status_fetch (a : list (str * str)) (w : World) :
  status (fst (app (GET "/fetch" a) w)) = 200%Z.
Proof.
  rewrite app_fetch, fetch_url_steps. cbn [fst].
  now destruct (network w _ 5).
Qed.

Lemma status_encrypt (a : list (str * str)) (w : World) (plaintext : bytes) :
  (clock w < 2 ^ 64)%N ->
  str_encode (message_of (GET "/encrypt" a)) = Return plaintext ->
  status (fst (app (GET "/encrypt" a) w)) = 200%Z.
Proof.
  intros C E. rewrite app_encrypt, encrypt_test_steps, E.
  destruct (token_of_returns w plaintext C) as [token ->]. reflexivity.
Qed.

End Routes.

Section Claims.
Context {jinja : TemplateEngine} {pyyaml : YAML} {backend : CryptoBackend}.

(** C1. The YAML handler hands the string the caller supplied to
    [yaml.load] under [FullLoader], and returns what that loader builds.
    On tagged input from which [FullLoader] reconstructs an object and
    which the loader restricted to plain scalars, mappings and sequences,
    [SafeLoader], refuses, the response is the rendering of the object;
    the same handler over a library whose loaders all behave as
    [SafeLoader] answers with the refusal.  Nothing but the answer of
    [FullLoader] on that string enters the response. *)
Theorem yaml_test_uses_full_loader (a : list (str * str)) (w : World)
    (refusal : exn) (parsed : pyobject) (shown : str) :
  let request := GET "/yaml" a in
  yaml_load (data_of request) SafeLoader = Raise refusal ->
  yaml_load (data_of request) FullLoader = Return parsed ->
  format parsed = Return shown ->
  app request w = (Ok (lit "Parsed YAML: " ++ shown), w)
  /\ app (pyyaml := with_load pyyaml
                      (fun stream _ => yaml_load stream SafeLoader))
         request w
     = (Ok (lit "Error: " ++ exn_str refusal), w)
  /\ (forall load : str -> Loader -> outcome pyobject,
        load (data_of request) FullLoader
          = yaml_load (data_of request) FullLoader ->
        app (pyyaml := with_load pyyaml load) request w = app request w).
Proof.
  intros request S F R.
  assert (A : app request w = (Ok (lit "Parsed YAML: " ++ shown), w))
    by (unfold request; rewrite app_yaml, yaml_test_steps; fold request;
        now rewrite F, R).
  split; [exact A|]. split.
  - unfold request. rewrite app_yaml, yaml_test_steps. fold request.
    cbn [yaml_load with_load]. now rewrite S.
  - intros load H. rewrite A. unfold request.
    rewrite app_yaml, yaml_test_steps. fold request.
    cbn [yaml_load with_load format]. now rewrite H, F, R.
Qed.


(** C3. For every query of the fetch route: when the outbound request
    raises (a timeout, a connection error, an invalid URL), the response
    is ["Error: "] followed by the message of the exception, under
    status 200. *)
Theorem fetch_url_catches (a : list (str * str)) (w : World) (e : exn) :
  let request := GET "/fetch" a in
  network w (url_of request) 5 = Raise e ->
  app request w = (Ok (lit "Error: " ++ exn_str e), w)
  /\ status (fst (app request w)) = 200%Z.
Proof.
  intros request H. split; [|apply status_fetch].
  unfold request. rewrite app_fetch, fetch_url_steps. fold request.
  now rewrite H.
Qed.


(** C5. The template handler has no error handling: when the engine
    raises on the template, the exception leaves the handler as it is,
    and the framework answers with its server error page, status 500. *)
Theorem template_test_propagates (a : list (str * str)) (w : World)
    (e : exn) :
  let request := GET "/template" a in
  render_template_string (template_of request) = Raise e ->
  template_test request w = (Raise e, w)
  /\ app request w = (InternalServerError e, w)
  /\ status (fst (app request w)) = 500%Z.
Proof.
  intros request H.
  assert (A : app request w = (InternalServerError e, w))
    by (unfold request; rewrite app_template; fold request; now rewrite H).
  split; [|split].
  - unfold template_test, lift. fold (template_of request). now rewrite H.
  - exact A.
  - now rewrite A.
Qed.

(** C6. Each of the five routes, asked without query parameters, answers
    under status 200 with the response computed from its documented
    default: the home page; what the engine renders from
    ["Hello, World!"]; what [FullLoader] builds from ["message: Hello"],
    rendered behind ["Parsed YAML: "]; the status and the first 200
    characters of what the network answers for
    ["https://httpbin.org/get"] under the timeout of 5 seconds; the token
    that encrypts the UTF-8 octets of ["Secret data"] under the key and
    the IV drawn in the call.  Each is also the response to the query
    that spells the default out.  The template route needs the engine to
    render its default, the encrypt route a clock that fits the 64 bits
    of the timestamp field. *)
Theorem defaults_without_query (w : World) (rendered : str) :
  render_template_string (lit "Hello, World!") = Return rendered ->
  (clock w < 2 ^ 64)%N ->
  app (GET "/" []) w = (Ok home_text, w)
  /\ (app (GET "/template" []) w = (Ok rendered, w)
      /\ app (GET "/template" []) w
         = app (GET "/template" [(lit "template", lit "Hello, World!")]) w)
  /\ ((forall parsed shown,
         yaml_load (lit "message: Hello") FullLoader = Return parsed ->
         format parsed = Return shown ->
         app (GET "/yaml" []) w = (Ok (lit "Parsed YAML: " ++ shown), w))
      /\ status (fst (app (GET "/yaml" []) w)) = 200%Z
      /\ app (GET "/yaml" []) w
         = app (GET "/yaml" [(lit "data", lit "message: Hello")]) w)
  /\ ((forall response,
         network w (lit "https://httpbin.org/get") 5 = Return response ->
         app (GET "/fetch" []) w
         = (Ok (lit "Status: " ++ str_of_int (status_code response)
                ++ lit "<br>Content: " ++ slice_to 200 (text response)), w))
      /\ status (fst (app (GET "/fetch" []) w)) = 200%Z
      /\ app (GET "/fetch" []) w
         = app (GET "/fetch" [(lit "url", lit "https://httpbin.org/get")]) w)
  /\ ((exists token,
         token_of w (list_byte_of_string "Secret data") = Return token
         /\ app (GET "/encrypt" []) w
            = (Ok (lit "Encrypted: " ++ ascii_text token), advance 48 w))
      /\ app (GET "/encrypt" []) w
         = app (GET "/encrypt" [(lit "message", lit "Secret data")]) w).
Proof.
  intros R C.
  split; [reflexivity|].
  split; [|split; [|split]].
  - split; [|reflexivity]. rewrite app_template.
    change (template_of _) with (lit "Hello, World!"). now rewrite R.
  - split; [|split].
    + intros parsed shown L F. rewrite app_yaml, yaml_test_steps.
      change (data_of _) with (lit "message: Hello"). now rewrite L, F.
    + apply status_yaml.
    + rewrite !app_yaml, !yaml_test_steps. reflexivity.
  - split; [|split].
    + intros response N. rewrite app_fetch, fetch_url_steps.
      change (url_of _) with (lit "https://httpbin.org/get"). now rewrite N.
    + apply status_fetch.
    + rewrite !app_fetch, !fetch_url_steps. reflexivity.
  - split.
    + destruct (token_of_returns w (list_byte_of_string "Secret data") C)
        as [token T].
      exists token. split; [exact T|].
      rewrite app_encrypt, encrypt_test_steps.
      change (str_encode (message_of _))
        with (Return (list_byte_of_string "Secret data")).
      cbv beta iota. now rewrite T.
    + rewrite !app_encrypt, !encrypt_test_steps. reflexivity.
Qed.

End Claims.

Section MoreClaims.
Context {jinja : TemplateEngine} {pyyaml : YAML} {backend : CryptoBackend}.
Import fernet_facts.


(** C9, as amended.  No handler has a state of its own, and each response
    body is a function of the request and of what the one call the handler
    makes returns on that occasion: nothing for the home route; what the
    engine renders from the template text; what the YAML library loads
    from the data under [FullLoader] and renders; what the network answers
    to the GET; the 48 octets of entropy and the clock second for the
    encrypt route, which consumes those octets (32 when the message cannot
    be encoded).  Two invocations with the same request return the same
    body whenever these are the same at both. *)
Theorem responses_determined_by (request : Request) :
  (forall w, home w = (Return home_text, w))
  /\ (forall (j j' : TemplateEngine) (w w' : World),
        render_template_string (TemplateEngine := j) (template_of request)
          = render_template_string (TemplateEngine := j')
              (template_of request) ->
        fst (template_test (jinja := j) request w)
          = fst (template_test (jinja := j') request w'))
  /\ (forall (y y' : YAML) (w w' : World),
        load_and_format (pyyaml := y) (data_of request)
          = load_and_format (pyyaml := y') (data_of request) ->
        fst (yaml_test (pyyaml := y) request w)
          = fst (yaml_test (pyyaml := y') request w'))
  /\ (forall w w',
        network w (url_of request) 5 = network w' (url_of request) 5 ->
        fst (fetch_url request w) = fst (fetch_url request w'))
  /\ (forall w w',
        next_key_material w = next_key_material w' ->
        next_iv w = next_iv w' -> clock w = clock w' ->
        fst (encrypt_test request w) = fst (encrypt_test request w'))
  /\ (forall w,
        snd (encrypt_test request w)
        = advance (if returned (str_encode (message_of request))
                   then 48 else 32) w).
Proof.
  split; [reflexivity|].
  split; [|split; [|split; [|split]]].
  - intros j j' w w' H. unfold template_test, lift.
    fold (template_of request). cbn [fst]. exact H.
  - intros y y' w w' H. rewrite !yaml_test_steps. cbn [fst].
    unfold load_and_format in H.
    destruct (yaml_load (YAML := y) (data_of request) FullLoader)
      as [parsed|e];
      destruct (yaml_load (YAML := y') (data_of request) FullLoader)
        as [parsed'|e'].
    + now rewrite H.
    + rewrite H. reflexivity.
    + rewrite <- H. reflexivity.
    + now injection H as ->.
  - intros w w' H. rewrite !fetch_url_steps. cbn [fst]. now rewrite H.
  - intros w w' K I C. rewrite !encrypt_test_steps.
    destruct (str_encode (message_of request)) as [plaintext|e];
      [|reflexivity].
    unfold token_of. rewrite K, I, C.
    now destruct (Fernet.encrypt_from_parts _ plaintext (clock w')
                    (next_iv w')).
  - intros w. rewrite encrypt_test_steps.
    destruct (str_encode (message_of request)) as [plaintext|e];
      [|reflexivity].
    cbn [returned]. now destruct (token_of w plaintext).
Qed.

(** C10.  With a backend whose decryption undoes its encryption, and a
    message that UTF-8 can encode: the text that follows ["Encrypted: "]
    in the response, taken back to bytes and decrypted by a [Fernet] made
    from the key generated in that call, is the UTF-8 encoding of the
    message. *)
Theorem encrypt_test_round_trip (request : Request) (w : World)
    (plaintext : bytes) :
  LawfulBackend backend ->
  (clock w < 2 ^ 64)%N ->
  str_encode (message_of request) = Return plaintext ->
  exists cipher shown token,
    fst (Fernet.generate_key w) = Return (key_of w)
    /\ Fernet.new (key_of w) = Return cipher
    /\ fst (encrypt_test request w) = Return (lit "Encrypted: " ++ shown)
    /\ str_encode shown = Return token
    /\ Fernet.decrypt cipher token = Return plaintext.
Proof.
  intros Law C E.
  destruct (token_of_returns w plaintext C) as [token T].
  exists (Fernet.mk (slice_to 16 (next_key_material w))
                    (slice_from 16 (next_key_material w))),
         (ascii_text token), token.
  split; [reflexivity|]. split; [apply new_key_of|].
  split; [now rewrite encrypt_test_steps, E, T|].
  split.
  - unfold token_of in T.
    apply encrypt_from_parts_frame in T as (stamp & _ & _ & ->).
    apply python_facts.str_encode_ascii, base64_facts.urlsafe_b64encode_ascii.
  - unfold token_of in T.
    eapply decrypt_encrypt_from_parts; [exact Law| | |exact T].
    + cbn [Fernet.encryption_key]. unfold slice_from.
      rewrite length_skipn, length_next_key_material. reflexivity.
    + apply length_next_iv.
Qed.

End MoreClaims.

(** C8.  The home handler returns a fixed page, whatever the world, and
    leaves the world as it is.  The page names the six pinned libraries;
    its links go to [/template], [/yaml] and [/fetch] and to nothing else:
    [/encrypt], which the routing table serves with the four other paths,
    is not mentioned on it. *)
Theorem home_page_links :
  (forall w, home w = (Return home_text, w))
  /\ forallb (fun l => contains (lit l) home_text)
       [ "Flask 2.0.1"; "Jinja2 2.11.3"; "Pillow 8.1.2"; "PyYAML 5.3.1";
         "cryptography 3.3.2"; "Django 2.2.0" ]%string = true
  /\ hrefs home_text = [lit "/template"; lit "/yaml"; lit "/fetch"]
  /\ map fst url_map
       = ["/"; "/template"; "/yaml"; "/fetch"; "/encrypt"]%string
  /\ contains (lit "encrypt") home_text = false.
Proof. repeat split; vm_compute; reflexivity. Qed.

(* ------------------------------------------------------------------ *)
(** ** Further properties of the handlers *)
(* ------------------------------------------------------------------ *)

Section Extras.
Context {jinja : TemplateEngine} {pyyaml : YAML} {backend : CryptoBackend}.
Import base64 base64_facts fernet_facts struct_facts python_facts.
Import utf8_facts more_facts.

(** X1.  On the fetch and encrypt routes the handler reads the first
    value of its own parameter and nothing else of the query: parameters
    before it with other names, and everything after it (later values of
    the same name included), do not change the response or what the call
    does to the world; and a query without the parameter is answered as
    the empty query is, from the default.  (On the template and YAML
    routes the caller's text is evaluated by a library that can look at
    the request, so nothing of the kind is stated for them.) *)
Theorem first_value_is_read (p k : string) (a1 a2 : list (str * str))
    (v : str) (w : World) :
  In (p, k) [("/fetch", "url"); ("/encrypt", "message")]%string ->
  forallb (fun kv => negb (str_eqb (fst kv) (lit k))) a1 = true ->
  app (GET p (a1 ++ (lit k, v) :: a2)) w = app (GET p [(lit k, v)]) w
  /\ app (GET p a1) w = app (GET p []) w.
Proof.
  intros I H.
  assert (F : forall d, args_get (a1 ++ (lit k, v) :: a2) (lit k) d
                        = args_get [(lit k, v)] (lit k) d)
    by (intros d; rewrite args_get_first by assumption;
        symmetry; apply (args_get_first [] [] (lit k) v d eq_refl)).
  assert (A : forall d, args_get a1 (lit k) d = args_get [] (lit k) d)
    by (intros d; now rewrite args_get_absent).
  destruct I as [E|[E|[]]]; injection E as <- <-.
  - rewrite !app_fetch, !fetch_url_steps. unfold url_of, GET. cbn [args].
    now rewrite F, A.
  - rewrite !app_encrypt, !encrypt_test_steps. unfold message_of, GET.
    cbn [args]. now rewrite F, A.
Qed.




(** X5.  For every message without a lone surrogate, which is every text a
    query string can carry, the encrypt route succeeds, and the text it
    returns decrypts, under the key of that call, to octets that decode
    back to the message itself. *)
Theorem encrypt_test_recovers_message (request : Request) (w : World) :
  LawfulBackend backend ->
  (clock w < 2 ^ 64)%N ->
  forallb scalar (message_of request) = true ->
  exists cipher shown token plaintext,
    Fernet.new (key_of w) = Return cipher
    /\ encrypt_test request w
       = (Return (lit "Encrypted: " ++ shown), advance 48 w)
    /\ str_encode shown = Return token
    /\ Fernet.decrypt cipher token = Return plaintext
    /\ bytes_decode plaintext = Return (message_of request).
Proof.
  intros Law C S.
  destruct (str_encode_scalar _ S) as [plaintext E].
  destruct (token_of_returns w plaintext C) as [token T].
  exists (Fernet.mk (slice_to 16 (next_key_material w))
                    (slice_from 16 (next_key_material w))),
         (ascii_text token), token, plaintext.
  split; [apply new_key_of|].
  split; [now rewrite encrypt_test_steps, E, T|].
  split; [|split].
  - unfold token_of in T.
    apply encrypt_from_parts_frame in T as (stamp & _ & _ & ->).
    apply str_encode_ascii, urlsafe_b64encode_ascii.
  - unfold token_of in T.
    eapply decrypt_encrypt_from_parts; [exact Law| | |exact T].
    + cbn [Fernet.encryption_key]. unfold slice_from.
      rewrite length_skipn, length_next_key_material. reflexivity.
    + apply length_next_iv.
  - now apply bytes_decode_str_encode.
Qed.

(** X6.  In one and the same world (the same key, IV and second), two
    requests to the encrypt route that carry different messages get
    different bodies: the ciphertext determines the message. *)
Theorem encrypt_test_message_injective (r1 r2 : Request) (w : World) :
  LawfulBackend backend ->
  (clock w < 2 ^ 64)%N ->
  forallb scalar (message_of r1) = true ->
  forallb scalar (message_of r2) = true ->
  fst (encrypt_test r1 w) = fst (encrypt_test r2 w) ->
  message_of r1 = message_of r2.
Proof.
  intros Law C S1 S2 H.
  destruct (str_encode_scalar _ S1) as [p1 E1].
  destruct (str_encode_scalar _ S2) as [p2 E2].
  destruct (token_of_returns w p1 C) as [t1 T1].
  destruct (token_of_returns w p2 C) as [t2 T2].
  rewrite !encrypt_test_steps, E1, E2, T1, T2 in H. cbn [fst] in H.
  injection H as H. apply ascii_text_inj in H. subst t2.
  assert (D : forall p, token_of w p = Return t1 ->
                Fernet.decrypt
                  (Fernet.mk (slice_to 16 (next_key_material w))
                             (slice_from 16 (next_key_material w))) t1
                = Return p).
  { intros p T. unfold token_of in T.
    eapply decrypt_encrypt_from_parts; [exact Law| | |exact T].
    - cbn [Fernet.encryption_key]. unfold slice_from.
      rewrite length_skipn, length_next_key_material. reflexivity.
    - apply length_next_iv. }
  pose proof (D p1 T1) as D1. rewrite (D p2 T2) in D1.
  injection D1 as <-.
  pose proof (bytes_decode_str_encode _ S1 E1) as B1.
  rewrite (bytes_decode_str_encode _ S2 E2) in B1.
  now injection B1.
Qed.

(** X7.  The length of the ciphertext text depends on the message only
    through the length of its UTF-8 encoding, in steps of 16 octets, and
    the text is made of URL-safe base64 characters: with [n] octets of
    plaintext it has [4 * ((75 + 16 * (n / 16)) / 3)] characters. *)
Theorem encrypt_test_ciphertext_length (request : Request) (w : World)
    (plaintext : bytes) :
  LawfulBackend backend ->
  (clock w < 2 ^ 64)%N ->
  str_encode (message_of request) = Return plaintext ->
  exists shown,
    fst (encrypt_test request w) = Return (lit "Encrypted: " ++ shown)
    /\ List.length shown
       = 4 * ((75 + 16 * (List.length plaintext / 16)) / 3)
    /\ forallb url_safe shown = true.
Proof.
  intros Law C E.
  destruct (token_of_returns w plaintext C) as [token T].
  exists (ascii_text token).
  split; [now rewrite encrypt_test_steps, E, T|].
  unfold token_of in T.
  apply encrypt_from_parts_frame in T as (stamp & _ & Ls & ->).
  split; [|apply url_safe_urlsafe_b64encode].
  unfold ascii_text. rewrite length_map, length_urlsafe_b64encode.
  unfold Fernet.frame. cbn [List.length Fernet.encryption_key].
  rewrite !length_app, Ls, length_next_iv, length_hmac.
  rewrite length_encrypt;
    [| unfold slice_from; rewrite length_skipn, length_next_key_material;
       reflexivity
     | apply length_next_iv
     | apply padding_facts.length_pad ].
  unfold padding.pad, padding.block_len.
  rewrite length_app, repeat_length. f_equal. lia.
Qed.

(** X8.  Whatever the backend, the text the encrypt route returns is the
    base64 of octets that begin with the version [0x80], the clock of the
    call on eight octets and the IV that was drawn: the second of the call
    and the IV can be read off the response without the key. *)
Theorem encrypt_test_header_in_clear (request : Request) (w : World)
    (plaintext : bytes) :
  (clock w < 2 ^ 64)%N ->
  str_encode (message_of request) = Return plaintext ->
  exists shown token data,
    fst (encrypt_test request w) = Return (lit "Encrypted: " ++ shown)
    /\ str_encode shown = Return token
    /\ urlsafe_b64decode token = Return data
    /\ slice_to 1 data = [x80]
    /\ Struct.unpack_Q (slice_to 8 (slice_from 1 data)) = Return (clock w)
    /\ slice_to 16 (slice_from 9 data) = next_iv w.
Proof.
  intros C E.
  destruct (token_of_returns w plaintext C) as [token T].
  exists (ascii_text token), token.
  unfold token_of in T.
  pose proof T as T'.
  apply encrypt_from_parts_frame in T' as (stamp & P & Ls & ->).
  eexists.
  split; [rewrite encrypt_test_steps, E; unfold token_of; now rewrite T|].
  split; [apply str_encode_ascii, urlsafe_b64encode_ascii|].
  split; [apply urlsafe_b64decode_encode|].
  match goal with
  | |- context [Fernet.frame stamp (next_iv w) ?c ?t] =>
      destruct (header_of_frame stamp (next_iv w) c t Ls (length_next_iv w))
        as (H1 & H2 & H3)
  end.
  split; [exact H1|]. split; [|exact H3].
  rewrite H2. now apply unpack_Q_pack_Q.
Qed.

End Extras.

(* ------------------------------------------------------------------ *)
(** ** Concrete runs *)
(* ------------------------------------------------------------------ *)

(** Each theorem above that has a hypothesis is run once on the sample
    libraries and worlds, with the hypotheses discharged by computation. *)

Section Runs.
Import Sample.
#[local] Existing Instance plain_text_engine.
#[local] Existing Instance one_line_yaml.
#[local] Existing Instance openssl.

Lemma yaml_test_uses_full_loader_run :
  app (pyyaml := python_tags) (GET "/yaml" [(lit "data", name_document)])
      counting
    = (Ok (lit "Parsed YAML: <class 'yaml.loader.FullLoader'>"), counting)
  /\ app (pyyaml := with_load python_tags
                      (fun stream _ =>
                         yaml_load (YAML := python_tags) stream SafeLoader))
         (GET "/yaml" [(lit "data", name_document)]) counting
     = (Ok (lit "Error: could not determine a constructor for the tag 'tag:yaml.org,2002:python/name:yaml.FullLoader'"),
        counting).
Proof.
  destruct (@yaml_test_uses_full_loader plain_text_engine python_tags openssl
              [(lit "data", name_document)] counting
              (ConstructorError name_document)
              (Named (lit "yaml.FullLoader")
                     (lit "<class 'yaml.loader.FullLoader'>"))
              (lit "<class 'yaml.loader.FullLoader'>")
              eq_refl eq_refl eq_refl) as (H1 & H2 & _).
  exact (conj H1 H2).
Defined.



Lemma fetch_url_catches_run :
  app (GET "/fetch" [(lit "url", lit "http://10.0.0.1/")]) counting
    = (Ok (lit "Error: Max retries exceeded"), counting)
  /\ status (fst (app (GET "/fetch" [(lit "url", lit "http://10.0.0.1/")])
                      counting)) = 200%Z.
Proof.
  apply (fetch_url_catches [(lit "url", lit "http://10.0.0.1/")] counting
           (e := ConnectionError)).
  reflexivity.
Defined.


Lemma template_test_propagates_run :
  template_test (GET "/template" [(lit "template", lit "{{")]) counting
    = (Raise TemplateSyntaxError, counting)
  /\ app (GET "/template" [(lit "template", lit "{{")]) counting
       = (InternalServerError TemplateSyntaxError, counting)
  /\ status (fst (app (GET "/template" [(lit "template", lit "{{")])
                      counting)) = 500%Z.
Proof.
  apply (template_test_propagates [(lit "template", lit "{{")] counting
           (e := TemplateSyntaxError)).
  reflexivity.
Defined.

Lemma defaults_without_query_run :
  app (GET "/" []) counting = (Ok home_text, counting)
  /\ app (GET "/template" []) counting = (Ok (lit "Hello, World!"), counting)
  /\ app (GET "/yaml" []) counting
     = (Ok (lit "Parsed YAML: {'message': 'Hello'}"), counting)
  /\ app (GET "/fetch" []) counting
     = (Ok (lit "Status: 200<br>Content: {}"), counting)
  /\ app (GET "/encrypt" []) counting
     = (Ok (lit "Encrypted: gAAAAABlU_EAICEiIyQlJicoKSorLC0uLxOwNM7sxerr_L_tMOANBRy8sxU-s6toShpjnarIi3Gli0_7uK-ZFTqI3F1qlQ02jQ=="),
        advance 48 counting).
Proof.
  destruct (defaults_without_query (jinja := plain_text_engine)
              (pyyaml := one_line_yaml) (backend := openssl)
              counting (rendered := lit "Hello, World!") eq_refl eq_refl)
    as (H & (T & _) & (Y & _) & (F & _) & ((token & K & E) & _)).
  vm_compute in K. injection K as <-.
  exact (conj H (conj T (conj
           (Y (Mapping (lit "message") (lit "Hello")
               : @pyobject one_line_yaml)
              (lit "{'message': 'Hello'}") eq_refl eq_refl)
           (conj (F (mkResponse 200 (lit "{}")) eq_refl) E)))).
Defined.


Lemma responses_determined_by_run :
  fst (fetch_url (GET "/fetch" []) counting)
    = fst (fetch_url (GET "/fetch" []) stuck)
  /\ fst (encrypt_test (GET "/encrypt" []) counting)
       = fst (encrypt_test (GET "/encrypt" []) offline)
  /\ fst (yaml_test (pyyaml := one_line_yaml) (GET "/yaml" []) counting)
       = fst (yaml_test (pyyaml := python_tags) (GET "/yaml" []) offline).
Proof.
  pose proof (responses_determined_by (backend := openssl)) as D.
  split; [|split].
  - apply (proj1 (proj2 (proj2 (proj2 (D (GET "/fetch" [])))))
             counting stuck eq_refl).
  - apply (proj1 (proj2 (proj2 (proj2 (proj2 (D (GET "/encrypt" []))))))
             counting offline eq_refl eq_refl eq_refl).
  - apply (proj1 (proj2 (proj2 (D (GET "/yaml" []))))
             one_line_yaml python_tags counting offline eq_refl).
Defined.

Lemma encrypt_test_round_trip_run :
  exists cipher shown token,
    fst (Fernet.generate_key counting) = Return (key_of counting)
    /\ Fernet.new (key_of counting) = Return cipher
    /\ fst (encrypt_test (GET "/encrypt" []) counting)
         = Return (lit "Encrypted: " ++ shown)
    /\ str_encode shown = Return token
    /\ Fernet.decrypt cipher token
         = Return (list_byte_of_string "Secret data").
Proof.
  apply (encrypt_test_round_trip (GET "/encrypt" []) counting
           cbc_facts.openssl_lawful eq_refl eq_refl).
Defined.

(** C9, counterexample.  The same request to the encrypt route, twice in
    a row, gets two different bodies: under the OpenSSL backend the two
    shown, and under every backend two that differ.  The same request to
    the fetch route gets one body while the host answers and another once
    it is gone. *)
Lemma responses_differ_between_calls :
  fst (twice (view_function ep_encrypt (GET "/encrypt" [])) counting)
    = Return
        (lit "Encrypted: gAAAAABlU_EAICEiIyQlJicoKSorLC0uLxOwNM7sxerr_L_tMOANBRy8sxU-s6toShpjnarIi3Gli0_7uK-ZFTqI3F1qlQ02jQ==",
         lit "Encrypted: gAAAAABlU_EAUFFSU1RVVldYWVpbXF1eX0zSV7ggQSkd1w5HdLHEJNRRk8GiYW9Cq8xV2cN6hwE9RmLuv6iqgGhbSN79oXhL5A==")
  /\ (forall (jinja : TemplateEngine) (pyyaml : YAML)
             (backend : CryptoBackend),
        exists c1 c2,
          fst (twice (view_function (jinja := jinja) (pyyaml := pyyaml)
                        (backend := backend) ep_encrypt (GET "/encrypt" []))
                     counting) = Return (c1, c2)
          /\ c1 <> c2)
  /\ fst (view_function ep_fetch (GET "/fetch" []) counting)
       = Return (lit "Status: 200<br>Content: {}")
  /\ fst (view_function ep_fetch (GET "/fetch" []) offline)
       = Return (lit "Error: Max retries exceeded").
Proof.
  split; [vm_compute; reflexivity|].
  split; [|split; vm_compute; reflexivity].
  intros jinja pyyaml backend. cbn [view_function].
  set (request := GET "/encrypt" []).
  set (plaintext := list_byte_of_string "Secret data").
  destruct (token_of_returns (backend := backend) counting plaintext
              eq_refl) as [token T].
  destruct (token_of_returns (backend := backend) (advance 48 counting)
              plaintext eq_refl) as [token' T'].
  assert (R : encrypt_test request counting
              = (Return (lit "Encrypted: " ++ ascii_text token),
                 advance 48 counting)).
  { rewrite encrypt_test_steps.
    change (str_encode (message_of request)) with (Return plaintext).
    cbv beta iota. now rewrite T. }
  assert (R' : encrypt_test request (advance 48 counting)
               = (Return (lit "Encrypted: " ++ ascii_text token'),
                  advance 48 (advance 48 counting))).
  { rewrite encrypt_test_steps.
    change (str_encode (message_of request)) with (Return plaintext).
    cbv beta iota. now rewrite T'. }
  exists (lit "Encrypted: " ++ ascii_text token),
         (lit "Encrypted: " ++ ascii_text token').
  split; [unfold twice, bind; now rewrite R, R'|].
  eapply (encrypt_test_distinct request (w := counting)
            (w' := advance 48 counting)).
  - left. intros H. discriminate H.
  - now rewrite R.
  - now rewrite R'.
Qed.

End Runs.


Section MoreRuns.
Import Sample.
#[local] Existing Instance plain_text_engine.
#[local] Existing Instance one_line_yaml.
#[local] Existing Instance openssl.

(** The message "hé€" followed by U+1F600, one code point of each width. *)
Definition four_widths : str := [104; 233; 8364; 128512]%N.

Lemma first_value_is_read_run :
  app (GET "/encrypt" ([(lit "x", lit "1")]
                       ++ (lit "message", []) :: [(lit "message", lit "a")]))
      counting
    = app (GET "/encrypt" [(lit "message", [])]) counting
  /\ app (GET "/encrypt" [(lit "x", lit "1")]) counting
       = app (GET "/encrypt" []) counting.
Proof.
  apply (@first_value_is_read plain_text_engine one_line_yaml openssl
           "/encrypt"%string "message"%string [(lit "x", lit "1")]
           [(lit "message", lit "a")] [] counting
           (or_intror (or_introl eq_refl)) eq_refl).
Defined.


Lemma encrypt_test_recovers_message_run :
  exists cipher shown token plaintext,
    Fernet.new (key_of counting) = Return cipher
    /\ encrypt_test (GET "/encrypt" [(lit "message", four_widths)]) counting
       = (Return (lit "Encrypted: " ++ shown), advance 48 counting)
    /\ str_encode shown = Return token
    /\ Fernet.decrypt cipher token = Return plaintext
    /\ bytes_decode plaintext = Return four_widths.
Proof.
  apply (encrypt_test_recovers_message
           (GET "/encrypt" [(lit "message", four_widths)]) counting
           cbc_facts.openssl_lawful eq_refl eq_refl).
Defined.

Lemma encrypt_test_message_injective_run :
  message_of (GET "/encrypt" [])
  = message_of (GET "/encrypt" [(lit "message", lit "Secret data")]).
Proof.
  apply (encrypt_test_message_injective
           (GET "/encrypt" [])
           (GET "/encrypt" [(lit "message", lit "Secret data")])
           counting cbc_facts.openssl_lawful eq_refl eq_refl eq_refl).
  vm_compute. reflexivity.
Defined.

Lemma encrypt_test_ciphertext_length_run :
  exists shown,
    fst (encrypt_test (GET "/encrypt" []) counting)
      = Return (lit "Encrypted: " ++ shown)
    /\ List.length shown = 100
    /\ forallb url_safe shown = true.
Proof.
  apply (encrypt_test_ciphertext_length (GET "/encrypt" []) counting
           (plaintext := list_byte_of_string "Secret data")
           cbc_facts.openssl_lawful eq_refl eq_refl).
Defined.

Lemma encrypt_test_header_in_clear_run :
  exists shown token data,
    fst (encrypt_test (GET "/encrypt" []) counting)
      = Return (lit "Encrypted: " ++ shown)
    /\ str_encode shown = Return token
    /\ base64.urlsafe_b64decode token = Return data
    /\ slice_to 1 data = [x80]
    /\ Struct.unpack_Q (slice_to 8 (slice_from 1 data))
         = Return 1700000000%N
    /\ slice_to 16 (slice_from 9 data) = next_iv counting.
Proof.
  apply (encrypt_test_header_in_clear (GET "/encrypt" []) counting
           (plaintext := list_byte_of_string "Secret data")
           eq_refl eq_refl).
Defined.

End MoreRuns.
